(** * nmtpytorch: the Translator front end and the multi-label Multi30k data set

    A shallow embedding of [nmtpytorch/translator.py] and
    [nmtpytorch/datasets/multilabelmulti30k.py].

    Python values are modelled as they occur in the two files:
    - [str] is [string]; [str.split] and [str.format] are written out;
    - [int] is [Z], [len(...)] is a [nat];
    - [float] is an IEEE-754 binary value ([spec_float]);
    - [dict] is a [gmap]; lists are [list];
    - exceptions and [sys.exit] are the [Raise] outcomes of an
      error-and-state monad whose state is the outside world
      (the sequence of calls made to collaborators, and the file system). *)

From Stdlib Require Import ZArith Ascii String DecimalString.
From Stdlib Require DecimalPos DecimalZ.
From Stdlib Require Import Floats.SpecFloat.
From stdpp Require Import gmap strings list fin_maps.

Local Open Scope Z_scope.

(** ** Python strings *)

Module Py.

(** [s.split(sep)] for a one-character separator: the maximal pieces between
    occurrences of [sep]; the empty string gives one empty piece. *)
Fixpoint split (sep : ascii) (s : string) : list string :=
  match s with
  | EmptyString => [EmptyString]
  | String c s' =>
      if Ascii.eqb c sep then EmptyString :: split sep s'
      else match split sep s' with
           | [] => [String c EmptyString]
           | w :: ws => String c w :: ws
           end
  end.

(** [s.partition(sep)] restricted to what [split(sep, 1)] needs: the text
    before the first [sep] and the text after it, when there is one. *)
Fixpoint cut (sep : ascii) (s : string) : option (string * string) :=
  match s with
  | EmptyString => None
  | String c s' =>
      if Ascii.eqb c sep then Some (EmptyString, s')
      else match cut sep s' with
           | Some (k, r) => Some (String c k, r)
           | None => None
           end
  end.

(** [s.split(sep, 1)]: at most one cut, at the first separator. *)
Definition split1 (sep : ascii) (s : string) : list string :=
  match cut sep s with
  | Some (k, r) => [k; r]
  | None => [s]
  end.

(** [sep.join(l)]; the inverse direction of [split], used in statements. *)
Fixpoint join (sep : ascii) (l : list string) : string :=
  match l with
  | [] => EmptyString
  | [w] => w
  | w :: ws => w +:+ String sep (join sep ws)
  end.

(** [sep in s] *)
Fixpoint contains (sep : ascii) (s : string) : bool :=
  match s with
  | EmptyString => false
  | String c s' => Ascii.eqb c sep || contains sep s'
  end.

(** ["{}".format(n)] for an [int]. *)
Definition str_int (n : Z) : string := NilZero.string_of_int (Z.to_int n).

(** Truth value of a [str] or [None] argument. *)
Definition truthy (o : option string) : bool :=
  match o with
  | Some (String _ _) => true
  | _ => false
  end.

(** *** Floats

    A Python [float] is a binary64 value; [spec_float] gives its sign,
    mantissa and exponent, the value of [S754_finite s m e] being
    [(-1)^s * m * 2^e]. *)

(** [x > 0.] *)
Definition float_gt0 (x : spec_float) : bool := SFltb (S754_zero false) x.

(** [m * 2^e] in tenths, rounded to the nearest integer, ties to even:
    the digits that [{:.1f}] prints. *)
Definition tenths (m : positive) (e : Z) : Z :=
  if 0 <=? e then 10 * Z.pos m * 2 ^ e
  else
    let d := 2 ^ (- e) in
    let q := (10 * Z.pos m) / d in
    let r := (10 * Z.pos m) mod d in
    if 2 * r <? d then q
    else if d <? 2 * r then q + 1
    else if Z.even q then q else q + 1.

Definition sign_str (s : bool) : string := if s then "-" else "".

(** ["{:.1f}".format(x)] *)
Definition format_1f (x : spec_float) : string :=
  match x with
  | S754_nan => "nan"
  | S754_infinity s => sign_str s +:+ "inf"
  | S754_zero s => sign_str s +:+ "0.0"
  | S754_finite s m e =>
      let t := tenths m e in
      sign_str s +:+ str_int (t / 10) +:+ "." +:+ str_int (t mod 10)
  end.

(** Exceptions that the two files can raise, and [sys.exit]. [OSError]
    stands for the class with its subclasses (FileNotFoundError,
    NotADirectoryError, PermissionError and so on), whatever the message. *)
Inductive exn : Type :=
  | AssertionError (msg : string)
  | ValueError (msg : string)
  | KeyError (key : string)
  | IndexError (msg : string)
  | TypeError (msg : string)
  | OSError
  | SystemExit (code : Z).

Inductive outcome (A : Type) : Type :=
  | Ok (a : A)
  | Raise (e : exn).
Arguments Ok {A} a.
Arguments Raise {A} e.

(** Statements that can raise and that change a state of type [S]. The
    state reached when an exception is raised is kept: what was done before
    the exception stays done. *)
Definition M (S A : Type) : Type := S -> outcome A * S.

Definition ret {S A} (a : A) : M S A := fun s => (Ok a, s).
Definition bind {S A B} (c : M S A) (k : A -> M S B) : M S B :=
  fun s => match c s with
           | (Ok a, s') => k a s'
           | (Raise e, s') => (Raise e, s')
           end.
Definition raise {S A} (e : exn) : M S A := fun s => (Raise e, s).
Definition lift {S A} (o : outcome A) : M S A := fun s => (o, s).

Notation "'let*' x ':=' c 'in' k" := (bind c (fun x => k))
  (at level 10, x name, c at level 100, k at level 200).
Notation "c '>>' k" := (bind c (fun _ => k))
  (at level 100, k at level 200, right associativity).

(** [l[i]] *)
Definition index {S A} (l : list A) (i : nat) : M S A :=
  match l !! i with
  | Some x => ret x
  | None => raise (IndexError "list index out of range")
  end.

End Py.

(** ** The Translator (nmtpytorch/translator.py) *)

Module Translator.
Import Py.

(** [pathlib.Path(s)] *)
Inductive path : Type := Path (s : string).

(** The part of [Options] that the translator reads and writes:
    [opts.train['model_type']], [opts.train['eval_filters']] and the
    [opts.data] section (a dict from set names to dicts of files). *)
Record options : Type := {
  train_model_type : string;
  train_eval_filters : string;
  data : gmap string (gmap string path)
}.

(** A model instance, by the attributes the translator reads. *)
Record instance : Type := {
  opts : options;
  supports_beam_search : bool;
  n_trg_vocab : Z
}.

(** [instance.opts.data[key] = d] *)
Definition set_data (key : string) (d : gmap string path) (i : instance) : instance :=
  {| opts := {| train_model_type := train_model_type (opts i);
                train_eval_filters := train_eval_filters (opts i);
                data := <[key := d]> (data (opts i)) |};
     supports_beam_search := supports_beam_search i;
     n_trg_vocab := n_trg_vocab i |}.

(** *** sanity_check

    [set([...])] builds the set of the distinct values of the list and
    [len] counts them. *)

Definition eval_filters_of (instances : list instance) : gset string :=
  list_to_set (map (fun i => train_eval_filters (opts i)) instances).

Definition n_trg_vocab_of (instances : list instance) : gset Z :=
  list_to_set (map n_trg_vocab instances).

(** [assert len(eval_filters) < 2, "eval_filters differ between instances."] *)
Definition check_eval_filters (instances : list instance) : outcome unit :=
  if decide (size (eval_filters_of instances) < 2)%nat then Ok tt
  else Raise (AssertionError "eval_filters differ between instances.").

(** [assert len(n_trg_vocab) == 1, "target vocabularies differ."] *)
Definition check_n_trg_vocab (instances : list instance) : outcome unit :=
  if decide (size (n_trg_vocab_of instances) = 1)%nat then Ok tt
  else Raise (AssertionError "target vocabularies differ.").

Definition sanity_check (instances : list instance) : outcome unit :=
  match check_eval_filters instances with
  | Ok _ => check_n_trg_vocab instances
  | Raise e => Raise e
  end.

(** *** The world outside the translator

    Calls to collaborators are recorded in order; instances are named by
    their position in [self.models]. *)
Inductive event : Type :=
  | LoadPtFile (model_file : string)
  | Construct (i : nat) (model_type : string)
  | LogError (msg : string)
  | Setup (i : nat)
  | LoadStateDict (i : nat)
  | Cuda (i : nat)
  | Train (i : nat) (mode : bool)
  | LoadData (split : string)
  | GetIterator (split : string) (batch_size : Z) (drop_targets inference : bool)
  | BeamSearch (n_instances : nat) (beam_size max_len : Z).

(** The file system is seen through [locate]: where a path leads, that is
    the file that opening the path for writing creates or truncates, or
    the exception that opening it raises (an [OSError] for a missing
    directory or a name that is too long, a [ValueError] for a name with a
    NUL in it). Two paths can lead to one file. [files] gives the content
    of each file; writing files changes that, never the directories, so
    never where a path leads or whether it can be opened. *)
Record world : Type := {
  trace : list event;
  files : gmap string string;
  locate : string -> outcome string
}.

(** The world after some more calls. *)
Definition after (w : world) (evs : list event) : world :=
  {| trace := trace w ++ evs; files := files w; locate := locate w |}.

(** The world after the file [f] has got the content [content]. *)
Definition written (w : world) (f content : string) : world :=
  {| trace := trace w; files := <[f := content]> (files w); locate := locate w |}.

Definition emit (e : event) : M world unit :=
  fun w => (Ok tt, after w [e]).

(** The calls that belong to decoding a split. *)
Definition decoding (e : event) : bool :=
  match e with
  | LoadData _ | GetIterator _ _ _ _ | BeamSearch _ _ _ => true
  | _ => false
  end.

(** The keyword arguments of the constructor (see bin/nmtpy). *)
Record kwargs : Type := {
  models : list string;
  splits : option string;
  source : option string;
  disable_filters : bool;
  beam_size : Z;
  max_len : Z;
  batch_size : Z;
  lp_alpha : spec_float;
  output : string
}.

(** [self.splits] holds the argument as given until the constructor
    replaces it by a list. *)
Inductive splits_attr : Type :=
  | AsGiven (s : option string)
  | SplitList (l : list string).

(** The translator object after construction. *)
Record translator : Type := {
  args : kwargs;
  n_models : nat;
  instances : list instance;
  filter : list string -> list string;
  self_splits : splits_attr
}.

(** [key, path = data_source.split(':', 1); input_dict[key] = Path(path)]
    for each entry in turn. *)
Fixpoint parse_source (entries : list string) (input_dict : gmap string path)
  : outcome (gmap string path) :=
  match entries with
  | [] => Ok input_dict
  | data_source :: rest =>
      match split1 ":" data_source with
      | [key; p] => parse_source rest (<[key := Path p]> input_dict)
      | _ => Raise (ValueError "not enough values to unpack (expected 2, got 1)")
      end
  end.

Section Collaborators.

(** What the translator imports: the checkpoint reader, the option
    parser, the model classes, the filter chain, the data iterator of an
    instance's data set and the beam search. *)
Variables weights raw_options loader : Type.
Variable load_pt_file : string -> weights * raw_options.
Variable Options_from_dict : raw_options -> options.
Variable model_class : string -> options -> instance.
Variable FilterChain : string -> list string -> list string.
Variable get_iterator : instance -> string -> Z -> bool -> bool -> loader.
Variable beam_search :
  list instance -> loader -> Z -> Z -> spec_float -> list string.

(** The instance that the loop body builds from one checkpoint. *)
Definition instance_of (model_file : string) : instance :=
  let opts := Options_from_dict (snd (load_pt_file model_file)) in
  model_class (train_model_type opts) opts.

Definition no_beam_search_msg : string :=
  "Model does not support beam search. Try 'nmtpy test'".

(** The loop of the constructor over [self.models]; [acc] is
    [self.instances] so far. *)
Fixpoint load_instances (model_files : list string) (acc : list instance)
  : M world (list instance) :=
  match model_files with
  | [] => ret acc
  | model_file :: rest =>
      let n := length acc in
      emit (LoadPtFile model_file) >>
      let opts := Options_from_dict (snd (load_pt_file model_file)) in
      emit (Construct n (train_model_type opts)) >>
      let instance := model_class (train_model_type opts) opts in
      if negb (supports_beam_search instance) then
        emit (LogError no_beam_search_msg) >>
        raise (SystemExit 1)
      else
        emit (Setup n) >>
        emit (LoadStateDict n) >>
        emit (Cuda n) >>
        emit (Train n false) >>
        load_instances rest (acc ++ [instance])
  end.

(** [self.filter] *)
Definition select_filter (disable : bool) (eval_filters : string)
  : list string -> list string :=
  if disable || negb (truthy (Some eval_filters)) then fun s => s
  else FilterChain eval_filters.

(** [Translator.__init__], called with the keyword arguments [kw]. *)
Definition __init__ (kw : kwargs) : M world translator :=
  let* instances := load_instances (models kw) [] in
  lift (sanity_check instances) >>
  let* first := index instances 0 in
  let eval_filters := train_eval_filters (opts first) in
  let filter := select_filter (disable_filters kw) eval_filters in
  if truthy (splits kw) then
    ret {| args := kw; n_models := length (models kw);
           instances := instances; filter := filter;
           self_splits := SplitList (split "," (default "" (splits kw))) |}
  else if truthy (source kw) then
    let* input_dict := lift (parse_source (split "," (default "" (source kw))) ∅) in
    let* first := index instances 0 in
    ret {| args := kw; n_models := length (models kw);
           instances := <[0%nat := set_data "new_set" input_dict first]> instances;
           filter := filter;
           self_splits := SplitList ["new"] |}
  else
    ret {| args := kw; n_models := length (models kw);
           instances := instances; filter := filter;
           self_splits := AsGiven (splits kw) |}.

(** [Translator.translate(instances, split)]. The two log lines are left
    out: they have no effect on the result; the second one divides by the
    time that the beam search took, as read from the clock. *)
Definition translate (self : translator) (split : string) : M world (list string) :=
  let* first := index (instances self) 0 in
  emit (LoadData split) >>
  let* first := index (instances self) 0 in
  emit (GetIterator split (batch_size (args self)) true true) >>
  let loader := get_iterator first split (batch_size (args self)) true true in
  emit (BeamSearch (length (instances self))
                   (beam_size (args self)) (max_len (args self))) >>
  let hyps := beam_search (instances self) loader (beam_size (args self))
                          (max_len (args self)) (lp_alpha (args self)) in
  ret (filter self hyps).

End Collaborators.

Arguments instance_of {weights raw_options} _ _ _ _.
Arguments load_instances {weights raw_options} _ _ _ _ _.
Arguments __init__ {weights raw_options} _ _ _ _ _.
Arguments translate {loader} _ _ _ _.

(** The file name that [dump] builds. *)
Definition dump_output (self : translator) (split : string) : string :=
  let suffix := "" in
  let suffix :=
    if float_gt0 (lp_alpha (args self))
    then suffix +:+ ".lp_" +:+ format_1f (lp_alpha (args self))
    else suffix in
  let suffix :=
    if decide (1 < n_models self)%nat
    then suffix +:+ ".ens" +:+ str_int (Z.of_nat (n_models self))
    else suffix in
  let suffix := suffix +:+ ".beam" +:+ str_int (beam_size (args self)) in
  if decide (split = "new") then output (args self) +:+ suffix
  else output (args self) +:+ "." +:+ split +:+ suffix.

(** [open(output, 'w')]: the file that the path leads to is created or
    truncated and handed over; where the path leads nowhere, the open
    raises and nothing is changed. *)
Definition open_w (name : string) : M world string :=
  fun w =>
    match locate w name with
    | Ok f => (Ok f, written w f "")
    | Raise e => (Raise e, w)
    end.

(** [f.write(s)]: [s] is appended to the open file [f]; the disk has
    room, and a string is the text as the file's encoding writes it. *)
Definition write (f : string) (s : string) : M world unit :=
  fun w =>
    (Ok tt, {| trace := trace w;
               files := alter (fun content => content +:+ s) f (files w);
               locate := locate w |}).

Fixpoint write_lines (f : string) (hyps : list string) : M world unit :=
  match hyps with
  | [] => ret tt
  | line :: rest => write f (line +:+ String "010" "") >> write_lines f rest
  end.

(** [Translator.dump(hyps, split)] *)
Definition dump (self : translator) (hyps : list string) (split : string) : M world unit :=
  let output := dump_output self split in
  let* f := open_w output in
  write_lines f hyps.

(** [Translator.__call__()] *)
Section Call.
Variables loader : Type.
Variable get_iterator : instance -> string -> Z -> bool -> bool -> loader.
Variable beam_search :
  list instance -> loader -> Z -> Z -> spec_float -> list string.

Fixpoint translate_all (self : translator) (inputs : list string) : M world unit :=
  match inputs with
  | [] => ret tt
  | input_ :: rest =>
      let* hyps := translate get_iterator beam_search self input_ in
      dump self hyps input_ >>
      translate_all self rest
  end.

Definition __call__ (self : translator) : M world unit :=
  match self_splits self with
  | SplitList l => translate_all self l
  | AsGiven None => raise (TypeError "'NoneType' object is not iterable")
  | AsGiven (Some s) =>
      translate_all self (map (fun c => String c "") (String.list_ascii_of_string s))
  end.
End Call.

Arguments translate_all {loader} _ _ _ _.
Arguments __call__ {loader} _ _ _.

End Translator.

(** ** The multi-label Multi30k data set
       (nmtpytorch/datasets/multilabelmulti30k.py) *)

Module MultiLabelMulti30k.
Import Py.

(** A [DataSource]: a name with the [_type] tag of the data it stands for. *)
Record DataSource : Type := {
  name : string;
  _type : string
}.

#[global] Instance DataSource_eq_dec : EqDecision DataSource.
Proof. solve_decision. Defined.

(** An [OrderedDict] with string keys: the items in insertion order. *)
Abbreviation odict V := (list (string * V)).

(** [del d[k]] *)
Definition odict_del {V} (k : string) (d : odict V) : outcome (odict V) :=
  if bool_decide (k ∈ d.*1)
  then Ok (List.filter (fun kv => negb (String.eqb (fst kv) k)) d)
  else Raise (KeyError k).

(** A [Topology] object, by the two dictionaries the data set touches. *)
Record Topology : Type := {
  srcs : odict DataSource;
  trgs : odict DataSource
}.

(** Objects are shared by reference: the heap gives the current value of
    the topology object at each address. *)
Definition heap : Type := nat -> Topology.

Definition update (h : heap) (t : nat) (v : Topology) : heap :=
  fun a => if decide (a = t) then v else h a.

(** [del topology.srcs[src]] on the object at address [t]. *)
Definition del_src (t : nat) (src : string) : M heap unit :=
  fun h =>
    match odict_del src (srcs (h t)) with
    | Ok d => (Ok tt, update h t {| srcs := d; trgs := trgs (h t) |})
    | Raise e => (Raise e, h)
    end.

(** [del topology.trgs[trg]] on the object at address [t]. *)
Definition del_trg (t : nat) (trg : string) : M heap unit :=
  fun h =>
    match odict_del trg (trgs (h t)) with
    | Ok d => (Ok tt, update h t {| srcs := srcs (h t); trgs := d |})
    | Raise e => (Raise e, h)
    end.

(** Reading an attribute of the object at address [t]. *)
Definition read {A} (t : nat) (f : Topology -> A) : M heap A :=
  fun h => (Ok (f (h t)), h).

Section Collaborators.

(** The classes and functions the file imports. *)
Variables file vocabulary image_folder one_hot multi_parallel : Type.
Variable ImageFolderDataset : file -> Z -> Z -> Z -> bool -> image_folder.
Variable OneHotDataset : file -> vocabulary -> one_hot.

(** What the local dictionary [data] holds. *)
Inductive dataset : Type :=
  | Images (d : image_folder)
  | Labels (d : one_hot).

Variable MultiParallelDataset :
  list (DataSource * dataset) -> list (DataSource * dataset) -> multi_parallel.
Variable sources : multi_parallel -> list DataSource.
Variable data_sources : multi_parallel -> list DataSource.

(** [len(dataset)] and [dataset[idx]]: a data set gives one example for
    each index below its length. *)
Variable example : Type.
Variable len : multi_parallel -> nat.
Variable getitem : multi_parallel -> nat -> example.

(** A collate function makes one batch of the examples it is given, or
    raises. *)
Variable batch : Type.
Definition collate : Type := list example -> outcome batch.
Variable get_collate : list DataSource -> collate.

(** [torch.utils.data.SequentialSampler]: the indices from 0, in order. *)
Definition SequentialSampler (dataset : multi_parallel) : list nat :=
  seq 0 (len dataset).

(** [torch.utils.data.RandomSampler]: the indices in an order of its own
    choice. Depending on the version of torch, building it on an empty
    data set raises. *)
Variable RandomSampler : multi_parallel -> outcome (list nat).

(** [torch.utils.data.DataLoader], by the arguments it is built with and
    the order in which its sampler yields the indices. *)
Record DataLoader : Type := {
  dl_dataset : multi_parallel;
  shuffle : bool;
  dl_batch_size : Z;
  collate_fn : collate;
  sampler : list nat
}.

(** [DataLoader(dataset, shuffle=..., batch_size=..., collate_fn=...)]:
    the sampler is built first, then the batch sampler, which refuses a
    batch size that is not positive. *)
Definition DataLoader_new (dataset : multi_parallel) (shuffle : bool)
  (batch_size : Z) (collate_fn : collate) : outcome DataLoader :=
  match (if shuffle then RandomSampler dataset
         else Ok (SequentialSampler dataset)) with
  | Raise e => Raise e
  | Ok sampler =>
      if bool_decide (batch_size <= 0) then
        Raise (ValueError
                 ("batch_size should be a positive integer value, " +:+
                  "but got batch_size=" +:+ str_int batch_size))
      else
        Ok {| dl_dataset := dataset; shuffle := shuffle;
              dl_batch_size := batch_size; collate_fn := collate_fn;
              sampler := sampler |}
  end.

(** [BatchSampler.__iter__] with [drop_last=False]: the indices are
    appended to [batch], which is yielded and emptied when it reaches
    [batch_size]; what is left at the end is yielded if it is not empty. *)
Fixpoint BatchSampler (batch_size : Z) (sampler : list nat) (batch : list nat)
  : list (list nat) :=
  match sampler with
  | [] => match batch with [] => [] | _ => [batch] end
  | idx :: rest =>
      let batch := batch ++ [idx] in
      if Z.of_nat (length batch) =? batch_size
      then batch :: BatchSampler batch_size rest []
      else BatchSampler batch_size rest batch
  end.

(** Fetching the batches: [collate_fn([dataset[idx] for idx in indices])]
    for each list of indices. *)
Fixpoint fetch (loader : DataLoader) (batches : list (list nat))
  : outcome (list batch) :=
  match batches with
  | [] => Ok []
  | indices :: rest =>
      match collate_fn loader (map (getitem (dl_dataset loader)) indices) with
      | Raise e => Raise e
      | Ok b =>
          match fetch loader rest with
          | Ok bs => Ok (b :: bs)
          | Raise e => Raise e
          end
      end
  end.

(** [list(loader)]: one pass over the loader. *)
Definition __iter__ (loader : DataLoader) : outcome (list batch) :=
  fetch loader (BatchSampler (dl_batch_size loader) (sampler loader) []).

Record MultiLabelMulti30kDataset : Type := {
  topology : nat;
  self_dataset : multi_parallel
}.

Section Init.
Variable data_dict : gmap string file.
Variable vocabs : gmap string vocabulary.
Variable t : nat.
Variables (warmup : bool) (resize crop replicate : Z).

(** The first loop, over the items of [topology.srcs.copy()]. *)
Fixpoint loop_srcs (items : odict DataSource) (data : gmap string dataset)
  : M heap (gmap string dataset) :=
  match items with
  | [] => ret data
  | (src, ds) :: rest =>
      match data_dict !! src with
      | None => del_src t src >> loop_srcs rest data
      | Some f =>
          if String.eqb (_type ds) "ImageFolder" then
            loop_srcs rest
              (<[src := Images (ImageFolderDataset f resize crop replicate warmup)]> data)
          else loop_srcs rest data
      end
  end.

(** The second loop, over the items of [topology.trgs.copy()]. *)
Fixpoint loop_trgs (items : odict DataSource) (data : gmap string dataset)
  : M heap (gmap string dataset) :=
  match items with
  | [] => ret data
  | (trg, ds) :: rest =>
      match data_dict !! trg with
      | None => del_trg t trg >> loop_trgs rest data
      | Some path =>
          match vocabs !! trg with
          | None => raise (KeyError trg)
          | Some v => loop_trgs rest (<[trg := Labels (OneHotDataset path v)]> data)
          end
      end
  end.

(** [{v: data[k] for k, v in items}] *)
Fixpoint comprehension (items : odict DataSource) (data : gmap string dataset)
  : outcome (list (DataSource * dataset)) :=
  match items with
  | [] => Ok []
  | (k, v) :: rest =>
      match data !! k with
      | None => Raise (KeyError k)
      | Some d =>
          match comprehension rest data with
          | Ok l => Ok ((v, d) :: l)
          | Raise e => Raise e
          end
      end
  end.

(** [MultiLabelMulti30kDataset.__init__] with the topology object at
    address [t]. *)
Definition __init__ : M heap MultiLabelMulti30kDataset :=
  let* copy := read t srcs in
  let* data := loop_srcs copy ∅ in
  let* copy := read t trgs in
  let* data := loop_trgs copy data in
  let* items := read t srcs in
  let* src_datasets := lift (comprehension items data) in
  let* items := read t trgs in
  let* trg_datasets := lift (comprehension items data) in
  ret {| topology := t;
         self_dataset := MultiParallelDataset src_datasets trg_datasets |}.
End Init.

(** [MultiLabelMulti30kDataset.get_iterator] *)
Definition get_iterator (self : MultiLabelMulti30kDataset) (batch_size : Z)
  (drop_targets inference : bool) : outcome DataLoader :=
  let keys := if drop_targets then sources (self_dataset self)
              else data_sources (self_dataset self) in
  DataLoader_new (self_dataset self) (negb inference) batch_size
    (get_collate keys).

End Collaborators.

Arguments dataset : clear implicits.
Arguments Images {image_folder one_hot} d.
Arguments Labels {image_folder one_hot} d.
Arguments DataLoader : clear implicits.
Arguments MultiLabelMulti30kDataset : clear implicits.
Arguments topology {multi_parallel} _.
Arguments self_dataset {multi_parallel} _.
Arguments shuffle {multi_parallel example batch} _.
Arguments collate_fn {multi_parallel example batch} _.
Arguments dl_dataset {multi_parallel example batch} _.
Arguments dl_batch_size {multi_parallel example batch} _.
Arguments sampler {multi_parallel example batch} _.
Arguments SequentialSampler {multi_parallel} _ _.
Arguments DataLoader_new {multi_parallel example} _ {batch} _ _ _ _ _.
Arguments fetch {multi_parallel example} _ {batch} _ _.
Arguments __iter__ {multi_parallel example} _ {batch} _.
Arguments loop_srcs {file image_folder one_hot} _ _ _ _ _ _ _ _ _.
Arguments loop_trgs {file vocabulary image_folder one_hot} _ _ _ _ _ _.
Arguments comprehension {image_folder one_hot} _ _.
Arguments __init__ {file vocabulary image_folder one_hot multi_parallel} _ _ _ _ _ _ _ _ _ _.
Arguments get_iterator {multi_parallel} _ _ {example} _ {batch} _ _ _ _ _ _.

(** An item whose key has an entry in [data_dict]. *)
Definition present {file V} (data_dict : gmap string file) (kv : string * V) : bool :=
  bool_decide (is_Some (data_dict !! fst kv)).

End MultiLabelMulti30k.

(** ** The parallel data set and its batches *)

Module MultiParallel.
Import Py MultiLabelMulti30k.

(** [d[key]] on a dictionary whose keys are [DataSource] objects. *)
Fixpoint assoc {V} (key : DataSource) (d : list (DataSource * V)) : option V :=
  match d with
  | [] => None
  | (k, v) :: rest => if decide (k = key) then Some v else assoc key rest
  end.

Section Model.
Variables image_folder one_hot item : Type.

(** What one of the underlying data sets gives at an index. *)
Variable item_of : dataset image_folder one_hot -> nat -> item.

(** Modelled from the spec: [MultiParallelDataset]
    (datasets/multiparallel.py) is not part of the sources at hand. The
    specification has a batch hold source examples, with the target data
    present or not at the caller's choice; the data set is built from the
    source-side and the target-side data sets, given apart and each under
    its [DataSource]. The object is these two dictionaries. *)
Record MultiParallelDataset : Type := {
  src_datasets : list (DataSource * dataset image_folder one_hot);
  trg_datasets : list (DataSource * dataset image_folder one_hot)
}.

(** Modelled from the spec: [dataset.sources], missing with the class, is
    the keys of the source side. *)
Definition sources (d : MultiParallelDataset) : list DataSource :=
  (src_datasets d).*1.

(** Modelled from the spec: the keys of the target side. *)
Definition targets (d : MultiParallelDataset) : list DataSource :=
  (trg_datasets d).*1.

(** Modelled from the spec: [dataset.data_sources], missing with the class,
    is the keys of both sides, the sources first. *)
Definition data_sources (d : MultiParallelDataset) : list DataSource :=
  sources d ++ targets d.

(** Modelled from the spec: [dataset[idx]], missing with the class, is one
    example: under each key, what that key's data set gives at [idx]. *)
Definition getitem (d : MultiParallelDataset) (idx : nat)
  : list (DataSource * item) :=
  map (fun kv => (fst kv, item_of (snd kv) idx))
      (src_datasets d ++ trg_datasets d).

(** Modelled from the spec: the part of [get_collate] that gathers one
    key, [[elem[key] for elem in batch]]. *)
Fixpoint column (key : DataSource) (elems : list (list (DataSource * item)))
  : outcome (list item) :=
  match elems with
  | [] => Ok []
  | elem :: rest =>
      match assoc key elem with
      | None => Raise (KeyError (name key))
      | Some x =>
          match column key rest with
          | Ok xs => Ok (x :: xs)
          | Raise e => Raise e
          end
      end
  end.

(** Modelled from the spec: [get_collate] (datasets/collate.py) is not part
    of the sources at hand. The function it returns collates a batch over
    the keys it was made for and over no other: under each of them, in
    their order, the data of the batch's examples for that key. *)
Fixpoint get_collate (keys : list DataSource)
  (elems : list (list (DataSource * item)))
  : outcome (list (DataSource * list item)) :=
  match keys with
  | [] => Ok []
  | key :: rest =>
      match column key elems with
      | Raise e => Raise e
      | Ok xs =>
          match get_collate rest elems with
          | Ok b => Ok ((key, xs) :: b)
          | Raise e => Raise e
          end
      end
  end.

End Model.

Arguments src_datasets {image_folder one_hot} _.
Arguments trg_datasets {image_folder one_hot} _.
Arguments sources {image_folder one_hot} _.
Arguments targets {image_folder one_hot} _.
Arguments data_sources {image_folder one_hot} _.
Arguments getitem {image_folder one_hot item} _ _ _.
Arguments column {item} _ _.
Arguments get_collate {item} _ _.

End MultiParallel.

(** ** Statements of the specification, in its words *)

Module Spec.
Import Py Translator.

(** Modelled from the spec: the filter chain (utils/filterchain.py) is not
    part of the sources at hand; the specification calls the declared
    configuration a list of filters and compares two of them as unordered
    sets. The configuration string names the filters separated by commas;
    this is the set of those names. *)
Definition declared_filters (eval_filters : string) : gset string :=
  match eval_filters with
  | EmptyString => ∅
  | _ => list_to_set (split "," eval_filters)
  end.

(** The file name of section 4.6: the base path, the split unless it is the
    ad-hoc one, then the three suffixes. *)
Definition output_file_name (base split : string) (N : nat) (K : Z)
  (alpha : spec_float) : string :=
  base
  +:+ (if decide (split = "new") then "" else "." +:+ split)
  +:+ (if float_gt0 alpha then ".lp_" +:+ format_1f alpha else "")
  +:+ (if decide (1 < N)%nat then ".ens" +:+ str_int (Z.of_nat N) else "")
  +:+ ".beam" +:+ str_int K.

(** One line per hypothesis, each closed by a newline. *)
Definition lines (hyps : list string) : string :=
  foldr (fun line rest => line +:+ String "010" rest) "" hyps.

(** The dictionary that binds each key to its path, later entries winning. *)
Definition bindings (kvs : list (string * string)) : gmap string path :=
  foldl (fun d kv => <[fst kv := Path (snd kv)]> d) ∅ kvs.

(** An entry [key:path] of a source mapping. *)
Definition entry (kv : string * string) : string :=
  fst kv +:+ String ":" (snd kv).

End Spec.

(** ** Concrete inputs used in examples *)

Module Examples.
Import Py Translator.

Definition member (eval_filters : string) (vocab : Z) (beam : bool) : instance :=
  {| opts := {| train_model_type := "NMT";
                train_eval_filters := eval_filters;
                data := ∅ |};
     supports_beam_search := beam;
     n_trg_vocab := vocab |}.

(** Two members that declare the same filters in a different order. *)
Definition permuted_filters : list instance :=
  [member "de-bpe,lower" 100 true; member "lower,de-bpe" 100 true].

Definition matching : list instance :=
  [member "de-bpe" 100 true; member "de-bpe" 100 true].

Definition vocab_mismatch : list instance :=
  [member "de-bpe" 100 true; member "de-bpe" 101 true].

(** Collaborators for running the constructor: a checkpoint is named after
    what it holds, [<model type>-<eval filters>]; the classifier is the
    one model type without beam search. *)
Definition load_pt_file (model_file : string) : unit * list string :=
  (tt, split "-" model_file).

Definition Options_from_dict (raw : list string) : options :=
  {| train_model_type := default "" (raw !! 0%nat);
     train_eval_filters := default "" (raw !! 1%nat);
     data := ∅ |}.

Definition model_class (model_type : string) (o : options) : instance :=
  {| opts := o;
     supports_beam_search := negb (String.eqb model_type "Classifier");
     n_trg_vocab := 100 |}.

(** A filter chain that marks each hypothesis it has seen. *)
Definition FilterChain (eval_filters : string) (hyps : list string) : list string :=
  map (fun h => h +:+ "|" +:+ eval_filters) hyps.

Definition get_iterator (i : instance) (split : string) (batch_size : Z)
  (drop_targets inference : bool) : string := split.

Definition beam_search (l : list instance) (loader : string)
  (beam_size max_len : Z) (lp_alpha : spec_float) : list string :=
  [loader +:+ " 1"; loader +:+ " 2"].

Definition one : spec_float := S754_finite false 4503599627370496 (-52).

Definition kw (models : list string) (splits source : option string)
  (disable : bool) : kwargs :=
  {| models := models; splits := splits; source := source;
     disable_filters := disable; beam_size := 5; max_len := 100;
     batch_size := 16; lp_alpha := one; output := "out" |}.

(** An empty file system in which every path leads to a file of its own. *)
Definition w0 : world :=
  {| trace := []; files := ∅; locate := fun path => Ok path |}.

(** A file system with one directory, the current one, where an older
    output is lying: a path with a slash leads nowhere. *)
Definition old_output : world :=
  {| trace := [];
     files := {[ "out.test.lp_1.0.ens2.beam5" := "old" ]};
     locate := fun path =>
       if contains "/" path then Raise OSError
       else Ok path |}.

(** A translator by the attributes that [dump] reads. *)
Definition writer (base : string) (N : nat) (K : Z) (alpha : spec_float)
  : translator :=
  {| args := {| models := []; splits := None; source := None;
                disable_filters := false; beam_size := K; max_len := 100;
                batch_size := 16; lp_alpha := alpha; output := base |};
     n_models := N;
     instances := [];
     filter := fun s => s;
     self_splits := AsGiven None |}.

(** A topology with two sources and two targets, of which only the images
    and the labels come with data. *)
Definition image : MultiLabelMulti30k.DataSource :=
  {| MultiLabelMulti30k.name := "image"; MultiLabelMulti30k._type := "ImageFolder" |}.
Definition en : MultiLabelMulti30k.DataSource :=
  {| MultiLabelMulti30k.name := "en"; MultiLabelMulti30k._type := "Text" |}.
Definition labels : MultiLabelMulti30k.DataSource :=
  {| MultiLabelMulti30k.name := "labels"; MultiLabelMulti30k._type := "OneHot" |}.
Definition de : MultiLabelMulti30k.DataSource :=
  {| MultiLabelMulti30k.name := "de"; MultiLabelMulti30k._type := "Text" |}.

Definition topo : MultiLabelMulti30k.Topology :=
  {| MultiLabelMulti30k.srcs := [("en", en); ("image", image)];
     MultiLabelMulti30k.trgs := [("labels", labels); ("de", de)] |}.

Definition heap0 : MultiLabelMulti30k.heap := fun _ => topo.

Definition data_dict : gmap string string :=
  {[ "image" := "/data/images"; "labels" := "/data/test.labels" ]}.

Definition vocabs : gmap string nat := {[ "labels" := 1000%nat ]}.

Definition ImageFolderDataset (root : string) (resize crop replicate : Z)
  (warmup : bool) : string := root.

Definition OneHotDataset (file : string) (vocab : nat) : string := file.

Definition MultiParallelDataset
  (src_datasets trg_datasets :
     list (MultiLabelMulti30k.DataSource * MultiLabelMulti30k.dataset string string))
  : list MultiLabelMulti30k.DataSource * list MultiLabelMulti30k.DataSource :=
  (src_datasets.*1, trg_datasets.*1).

(** A parallel data set of five examples with images on the source side
    and labels on the target side. *)
Definition multi30k : MultiParallel.MultiParallelDataset string string :=
  {| MultiParallel.src_datasets := [(image, MultiLabelMulti30k.Images "/data/images")];
     MultiParallel.trg_datasets := [(labels, MultiLabelMulti30k.Labels "/data/test.labels")] |}.

Definition item_of (d : MultiLabelMulti30k.dataset string string) (idx : nat)
  : string :=
  match d with
  | MultiLabelMulti30k.Images root => root +:+ "/" +:+ Py.str_int (Z.of_nat idx) +:+ ".jpg"
  | MultiLabelMulti30k.Labels file => file +:+ ":" +:+ Py.str_int (Z.of_nat idx)
  end.

Definition len (d : MultiParallel.MultiParallelDataset string string) : nat := 5.

Definition RandomSampler (d : MultiParallel.MultiParallelDataset string string)
  : Py.outcome (list nat) :=
  Py.Ok [3; 0; 4; 1; 2]%nat.

Definition test_set
  : MultiLabelMulti30k.MultiLabelMulti30kDataset
      (MultiParallel.MultiParallelDataset string string) :=
  {| MultiLabelMulti30k.topology := 7%nat;
     MultiLabelMulti30k.self_dataset := multi30k |}.

End Examples.

(** ** What a run leaves behind, written out *)

Module Behaviour.
Import Py Translator.

(** The calls made for one model that supports beam search, the [n]-th of
    the list. *)
Definition loading (n : nat) (model_file model_type : string) : list event :=
  [LoadPtFile model_file; Construct n model_type; Setup n;
   LoadStateDict n; Cuda n; Train n false].

(** The calls made for a list of models that all support beam search, the
    first of them being the [n]-th. *)
Fixpoint load_trace (type_of : string -> string) (n : nat)
  (model_files : list string) : list event :=
  match model_files with
  | [] => []
  | f :: rest => loading n f (type_of f) ++ load_trace type_of (S n) rest
  end.

(** The calls made up to the exit for a model without beam search. *)
Definition refusal (n : nat) (model_file model_type : string) : list event :=
  [LoadPtFile model_file; Construct n model_type; LogError no_beam_search_msg].

(** The path bound to [k] by the last entry of [kvs] that names it. *)
Fixpoint last_path (k : string) (kvs : list (string * string)) : option string :=
  match kvs with
  | [] => None
  | (k', p) :: rest =>
      match last_path k rest with
      | Some q => Some q
      | None => if decide (k' = k) then Some p else None
      end
  end.

(** The calls made to translate one split. *)
Definition split_events (self : translator) (split : string) : list event :=
  [LoadData split;
   GetIterator split (batch_size (args self)) true true;
   BeamSearch (length (instances self)) (beam_size (args self))
              (max_len (args self))].

(** The files after one write per split of [l], in order: the split [s]
    is written to the file [file s] with the content [content s]. *)
Definition written_all (file content : string -> string)
  (fs : gmap string string) (l : list string) : gmap string string :=
  foldl (fun fs s => <[file s := content s]> fs) fs l.

End Behaviour.

(** ** More concrete inputs *)

Module MoreExamples.
Import Py Translator.

(** A translator with one loaded model and two named splits. *)
Definition ready : translator :=
  {| args := Examples.kw ["NMT-"] (Some "test,val") None false;
     n_models := 1;
     instances := [Examples.member "" 100 true];
     filter := fun s => s;
     self_splits := SplitList ["test"; "val"] |}.

(** Data for the German target as well, which has no vocabulary. *)
Definition data_with_de : gmap string string :=
  <["de" := "/data/test.de"]> Examples.data_dict.

(** Data for the English source as well, which is text, not images. *)
Definition data_with_en : gmap string string :=
  <["en" := "/data/test.en"]> Examples.data_dict.

(** The same translator with a split that names a directory. *)
Definition stray : translator :=
  {| args := Examples.kw ["NMT-"] (Some "test,a/b,val") None false;
     n_models := 1;
     instances := [Examples.member "" 100 true];
     filter := fun s => s;
     self_splits := SplitList ["test"; "a/b"; "val"] |}.

(** Options that come with the data the model was trained on. *)
Definition Options_with_data (raw : list string) : options :=
  {| train_model_type := default "" (raw !! 0%nat);
     train_eval_filters := default "" (raw !! 1%nat);
     data := {[ "train_set" := {[ "en" := Path "/data/train.en" ]} ]} |}.

(** The instance that the example collaborators build from a checkpoint. *)
Definition instance_of_file (model_file : string) : instance :=
  instance_of Examples.load_pt_file Examples.Options_from_dict
    Examples.model_class model_file.

End MoreExamples.

(** ** Properties of the string functions *)

Module PyFacts.
Import Py.

Lemma split_not_nil sep s : split sep s <> [].
Proof.
  destruct s as [|c s]; simpl; [done|].
  destruct (Ascii.eqb c sep); [done|]. by destruct (split sep s).
Qed.

Lemma join_cons_String sep c w ws :
  join sep (String c w :: ws) = String c (join sep (w :: ws)).
Proof. by destruct ws. Qed.

(** Joining the pieces with the separator gives the string back. *)
Lemma join_split sep s : join sep (split sep s) = s.
Proof.
  induction s as [|c s IH]; simpl; [done|].
  destruct (Ascii.eqb c sep) eqn:Hc.
  - apply Ascii.eqb_eq in Hc as ->.
    pose proof (split_not_nil sep s) as Hne.
    destruct (split sep s) as [|w ws]; [done|].
    simpl in *. by rewrite IH.
  - pose proof (split_not_nil sep s) as Hne.
    destruct (split sep s) as [|w ws]; [done|].
    by rewrite join_cons_String, IH.
Qed.

(** No piece holds the separator. *)
Lemma split_pieces sep s : Forall (fun e => contains sep e = false) (split sep s).
Proof.
  induction s as [|c s IH]; simpl; [by repeat constructor|].
  destruct (Ascii.eqb c sep) eqn:Hc; [by constructor|].
  destruct (split sep s) as [|w ws]; [by repeat constructor; simpl; rewrite Hc|].
  inversion IH as [|? ? Hw Hws]; subst.
  constructor; [|done]. simpl. by rewrite Hc.
Qed.

(** [cut] finds the first separator. *)
Lemma cut_Some sep s k r :
  cut sep s = Some (k, r) ->
  s = k +:+ String sep r /\ contains sep k = false.
Proof.
  revert k. induction s as [|c s IH]; intros k; simpl; [done|].
  destruct (Ascii.eqb c sep) eqn:Hc.
  - apply Ascii.eqb_eq in Hc as ->. by intros [= <- <-].
  - destruct (cut sep s) as [[k' r']|]; [|done].
    intros [= <- <-]. destruct (IH k' eq_refl) as [-> Hk].
    simpl. by rewrite Hc.
Qed.

Lemma cut_contains sep s :
  contains sep s = true -> exists k r, cut sep s = Some (k, r).
Proof.
  induction s as [|c s IH]; simpl; [done|].
  destruct (Ascii.eqb c sep); simpl; [by eauto|].
  intros Hs. destruct (IH Hs) as (k & r & ->). eauto.
Qed.

Lemma cut_None sep s : contains sep s = false -> cut sep s = None.
Proof.
  induction s as [|c s IH]; simpl; [done|].
  destruct (Ascii.eqb c sep); simpl; [done|].
  intros Hs. by rewrite IH.
Qed.

Lemma append_cons x (a b : string) : String x a +:+ b = String x (a +:+ b).
Proof. reflexivity. Qed.

Lemma append_nil_l (a : string) : "" +:+ a = a.
Proof. reflexivity. Qed.

Lemma append_assoc (a b c : string) : (a +:+ b) +:+ c = a +:+ b +:+ c.
Proof. induction a as [|x a IH]; [done|]. by rewrite !append_cons, IH. Qed.

Lemma append_nil_r (a : string) : a +:+ "" = a.
Proof. induction a as [|x a IH]; [done|]. by rewrite append_cons, IH. Qed.

End PyFacts.

(** ** Properties of the ensemble checks *)

Module SanityCheck.
Import Py Translator.

(** The number of distinct values of a list. *)
Section Distinct.
Context {A : Type} {eqA : EqDecision A} {cntA : Countable A}.
Implicit Types l : list A.

Lemma distinct_lt_2 l :
  (size (list_to_set l : gset A) < 2)%nat <->
  (forall x y, x ∈ l -> y ∈ l -> x = y).
Proof.
  split.
  - intros Hsz x y Hx Hy.
    apply (elem_of_list_to_set (C:=gset A)) in Hx, Hy.
    destruct (decide (x = y)) as [|Hne]; [done|].
    assert (Hsub : ({[x]} ∪ {[y]} : gset A) ⊆ list_to_set l).
    { apply union_least; by apply singleton_subseteq_l. }
    apply subseteq_size in Hsub.
    rewrite size_union in Hsub by (by apply disjoint_singleton_l, not_elem_of_singleton).
    rewrite !size_singleton in Hsub. lia.
  - intros Hall. destruct l as [|a l'].
    + rewrite list_to_set_nil, size_empty. lia.
    + assert (Heq : (list_to_set (a :: l') : gset A) = {[a]}).
      { apply set_eq. intros x. rewrite elem_of_list_to_set, elem_of_singleton.
        split; [intros Hx; apply Hall; [done | left] | intros ->; left]. }
      rewrite Heq, size_singleton. lia.
Qed.

Lemma distinct_eq_1 l :
  size (list_to_set l : gset A) = 1%nat <->
  l <> [] /\ (forall x y, x ∈ l -> y ∈ l -> x = y).
Proof.
  split.
  - intros Hsz. split.
    + intros ->. rewrite list_to_set_nil, size_empty in Hsz. lia.
    + apply distinct_lt_2. lia.
  - intros [Hne Hall]. destruct l as [|a l']; [done|].
    apply distinct_lt_2 in Hall.
    assert (size (list_to_set (a :: l') : gset A) <> 0)%nat; [|lia].
    intros Hz. apply size_empty_inv in Hz.
    apply (not_elem_of_empty (C:=gset A) a).
    rewrite <- (leibniz_equiv _ _ Hz). apply elem_of_list_to_set. left.
Qed.
End Distinct.

Lemma check_eval_filters_spec instances :
  check_eval_filters instances = Ok tt <->
  (forall i j, i ∈ instances -> j ∈ instances ->
     train_eval_filters (opts i) = train_eval_filters (opts j)).
Proof.
  unfold check_eval_filters, eval_filters_of.
  case_decide as Hsz; rewrite distinct_lt_2 in Hsz.
  - split; [|done]. intros _ i j Hi Hj.
    apply Hsz; apply list_elem_of_fmap; eauto.
  - split; [done|]. intros Hall. exfalso. apply Hsz.
    intros x y [i [-> Hi]]%list_elem_of_fmap [j [-> Hj]]%list_elem_of_fmap.
    by apply Hall.
Qed.

Lemma check_n_trg_vocab_spec instances :
  check_n_trg_vocab instances = Ok tt <->
  instances <> [] /\
  (forall i j, i ∈ instances -> j ∈ instances -> n_trg_vocab i = n_trg_vocab j).
Proof.
  unfold check_n_trg_vocab, n_trg_vocab_of.
  case_decide as Hsz; rewrite distinct_eq_1 in Hsz.
  - split; [|done]. intros _. destruct Hsz as [Hne Hall]. split.
    + intros ->. by apply Hne.
    + intros i j Hi Hj. apply Hall; apply list_elem_of_fmap; eauto.
  - split; [done|]. intros [Hne Hall]. exfalso. apply Hsz. split.
    + destruct instances; [done|]. simpl. discriminate.
    + intros x y [i [-> Hi]]%list_elem_of_fmap [j [-> Hj]]%list_elem_of_fmap.
      by apply Hall.
Qed.

Lemma check_n_trg_vocab_raises instances :
  check_n_trg_vocab instances = Ok tt \/
  check_n_trg_vocab instances = Raise (AssertionError "target vocabularies differ.").
Proof. unfold check_n_trg_vocab. case_decide; auto. Qed.

Lemma check_eval_filters_raises instances :
  check_eval_filters instances = Ok tt \/
  check_eval_filters instances =
    Raise (AssertionError "eval_filters differ between instances.").
Proof. unfold check_eval_filters. case_decide; auto. Qed.

End SanityCheck.

Module TranslatorFacts.
Import Py Translator SanityCheck.

(** Case analysis on membership in a list that is written out. *)
Ltac elem_cases :=
  repeat match goal with
         | H : ?x ∈ (_ :: _) |- _ =>
             apply elem_of_cons in H; destruct H as [H|H]; [subst x|]
         | H : _ ∈ [] |- _ => apply elem_of_nil in H; destruct H
         end.

(** C1: when two members report different target-vocabulary sizes,
    [sanity_check] raises an assertion error (that of the vocabulary check,
    unless the filter check has raised before it); when all members report
    the same size as one of them, the vocabulary check raises nothing, and
    [sanity_check] ends as its filter check does. *)
Theorem sanity_check_n_trg_vocab (instances : list instance) :
  (forall i j, i ∈ instances -> j ∈ instances ->
     n_trg_vocab i <> n_trg_vocab j ->
     check_n_trg_vocab instances =
       Raise (AssertionError "target vocabularies differ.") /\
     (sanity_check instances =
        Raise (AssertionError "target vocabularies differ.") \/
      sanity_check instances =
        Raise (AssertionError "eval_filters differ between instances."))) /\
  (forall i, i ∈ instances ->
     (forall j, j ∈ instances -> n_trg_vocab j = n_trg_vocab i) ->
     check_n_trg_vocab instances = Ok tt /\
     sanity_check instances = check_eval_filters instances).
Proof.
  split.
  - intros i j Hi Hj Hne.
    assert (Hv : check_n_trg_vocab instances =
                 Raise (AssertionError "target vocabularies differ.")).
    { destruct (check_n_trg_vocab_raises instances) as [Hok|]; [|done].
      apply check_n_trg_vocab_spec in Hok as [_ Hall].
      destruct Hne. by apply Hall. }
    split; [done|]. unfold sanity_check.
    destruct (check_eval_filters_raises instances) as [-> | ->]; auto.
  - intros i Hi Hall.
    assert (Hv : check_n_trg_vocab instances = Ok tt).
    { apply check_n_trg_vocab_spec. split.
      - intros ->. by apply elem_of_nil in Hi.
      - intros a b Ha Hb. by rewrite (Hall a Ha), (Hall b Hb). }
    split; [done|]. unfold sanity_check.
    destruct (check_eval_filters_raises instances) as [-> | ->]; [|done].
    by rewrite Hv.
Qed.

(** Two members with 100 and 101 target words are rejected; two members
    with 100 each pass the vocabulary check. *)
Lemma sanity_check_n_trg_vocab_witness :
  check_n_trg_vocab Examples.vocab_mismatch =
    Raise (AssertionError "target vocabularies differ.") /\
  check_n_trg_vocab Examples.matching = Ok tt.
Proof.
  split.
  - refine (proj1 (proj1 (sanity_check_n_trg_vocab Examples.vocab_mismatch)
      (Examples.member "de-bpe" 100 true) (Examples.member "de-bpe" 101 true)
      _ _ _)).
    + unfold Examples.vocab_mismatch. apply list_elem_of_here.
    + unfold Examples.vocab_mismatch. apply list_elem_of_further, list_elem_of_here.
    + simpl. lia.
  - refine (proj1 (proj2 (sanity_check_n_trg_vocab Examples.matching)
      (Examples.member "de-bpe" 100 true) _ _)).
    + unfold Examples.matching. apply list_elem_of_here.
    + unfold Examples.matching. intros j Hj. elem_cases; reflexivity.
Defined.

(** C2, as the code has it: the filter check accepts exactly when all
    members carry the same [eval_filters] value, compared as it is written;
    it raises as soon as two members carry different values, whatever their
    order of filters. *)
Theorem check_eval_filters_exact (instances : list instance) :
  (check_eval_filters instances = Ok tt <->
   forall i j, i ∈ instances -> j ∈ instances ->
     train_eval_filters (opts i) = train_eval_filters (opts j)) /\
  (check_eval_filters instances =
     Raise (AssertionError "eval_filters differ between instances.") <->
   exists i j, i ∈ instances /\ j ∈ instances /\
     train_eval_filters (opts i) <> train_eval_filters (opts j)).
Proof.
  split; [apply check_eval_filters_spec|].
  split.
  - intros Hr. unfold check_eval_filters, eval_filters_of in Hr.
    case_decide as Hsz; [done|].
    destruct (decide (Exists (fun i => Exists (fun j =>
      train_eval_filters (opts i) <> train_eval_filters (opts j)) instances)
      instances)) as [Hex|Hnex].
    + apply Exists_exists in Hex as [i [Hi Hex]].
      apply Exists_exists in Hex as [j [Hj Hne]]. eauto.
    + destruct Hsz. apply distinct_lt_2.
      intros x y [i [-> Hi]]%list_elem_of_fmap [j [-> Hj]]%list_elem_of_fmap.
      destruct (decide (train_eval_filters (opts i) = train_eval_filters (opts j)))
        as [|Hne]; [done|].
      destruct Hnex. apply Exists_exists. exists i. split; [done|].
      apply Exists_exists. eauto.
  - intros [i [j [Hi [Hj Hne]]]].
    destruct (check_eval_filters_raises instances) as [Hok|]; [|done].
    destruct Hne. by apply (proj1 (check_eval_filters_spec instances) Hok).
Qed.

(** C2, as stated, fails: two members that declare the same set of filters
    in a different order are rejected. *)
Lemma check_eval_filters_not_unordered :
  (forall i j, i ∈ Examples.permuted_filters -> j ∈ Examples.permuted_filters ->
     Spec.declared_filters (train_eval_filters (opts i)) =
     Spec.declared_filters (train_eval_filters (opts j))) /\
  check_eval_filters Examples.permuted_filters =
    Raise (AssertionError "eval_filters differ between instances.") /\
  sanity_check Examples.permuted_filters =
    Raise (AssertionError "eval_filters differ between instances.").
Proof.
  split; [|split; vm_compute; reflexivity].
  unfold Examples.permuted_filters. intros i j Hi Hj.
  elem_cases; vm_compute; reflexivity.
Qed.

Lemma after_after w evs1 evs2 : after (after w evs1) evs2 = after w (evs1 ++ evs2).
Proof. unfold after. simpl. by rewrite app_assoc. Qed.

Lemma after_nil w : after w [] = w.
Proof. destruct w. unfold after. simpl. by rewrite app_nil_r. Qed.

Section Construction.
Variables weights raw_options loader : Type.
Variable load_pt_file : string -> weights * raw_options.
Variable Options_from_dict : raw_options -> options.
Variable model_class : string -> options -> instance.
Variable FilterChain : string -> list string -> list string.
Variable get_iterator : instance -> string -> Z -> bool -> bool -> loader.
Variable beam_search :
  list instance -> loader -> Z -> Z -> spec_float -> list string.

#[local] Abbreviation instance_of := (instance_of load_pt_file Options_from_dict model_class).
#[local] Abbreviation load_instances :=
  (load_instances load_pt_file Options_from_dict model_class).
#[local] Abbreviation __init__ := (__init__ load_pt_file Options_from_dict model_class FilterChain).
#[local] Abbreviation translate := (translate get_iterator beam_search).

#[local] Abbreviation supported :=
  (fun model_file => supports_beam_search (instance_of model_file) = true).

(** What the loading loop does, in one invariant: weights are loaded only
    into instances that support beam search, no decoding call is made, and
    the loop either loads every instance or exits at the first one without
    beam search, right after logging the error. *)
Lemma load_instances_run model_files acc w :
  exists evs,
    snd (load_instances model_files acc w) = after w evs /\
    (forall k, LoadStateDict k ∈ evs ->
       (length acc <= k)%nat /\
       exists g, model_files !! (k - length acc)%nat = Some g /\ supported g) /\
    (forall e, e ∈ evs -> decoding e = false) /\
    ((Forall supported model_files /\
      fst (load_instances model_files acc w) =
        Ok (acc ++ map instance_of model_files)) \/
     (Exists (fun g => ~ supported g) model_files /\
      fst (load_instances model_files acc w) = Raise (SystemExit 1) /\
      last evs = Some (LogError no_beam_search_msg))).
Proof.
  revert acc w. induction model_files as [|f rest IH]; intros acc w.
  - exists []. simpl. rewrite after_nil, app_nil_r.
    split; [done|]. split; [by intros ? ?%elem_of_nil|].
    split; [by intros ? ?%elem_of_nil|]. left. by split.
  - simpl. unfold bind, emit. simpl.
    fold (instance_of f).
    destruct (supports_beam_search (instance_of f)) eqn:Hsup; simpl.
    + rewrite !after_after. simpl.
      match goal with
      | |- context [Translator.load_instances _ _ _ rest ?a ?w'] =>
          destruct (IH a w') as (evs & Hw & Hld & Hdec & Hres)
      end.
      rewrite after_after in Hw. simpl in Hw.
      eexists. split; [exact Hw|].
      rewrite length_app in Hld. simpl in Hld.
      split; [|split].
      * intros k Hk. rewrite !elem_of_cons in Hk.
        destruct Hk as [?|[?|[?|[Hk|[?|[?|Hk]]]]]]; try discriminate.
        -- injection Hk as ->. split; [lia|]. exists f.
           by rewrite Nat.sub_diag.
        -- destruct (Hld k Hk) as (Hle & g & Hg & Hs).
           split; [lia|]. exists g. split; [|done].
           replace (k - length acc)%nat with (S (k - (length acc + 1)))%nat by lia.
           done.
      * intros e He. rewrite !elem_of_cons in He.
        destruct He as [->|[->|[->|[->|[->|[->|He]]]]]]; auto.
      * destruct Hres as [[Hall Hok]|(Hex & Hexit & Hlast)].
        -- left. split; [by constructor|].
           rewrite Hok, <- app_assoc. done.
        -- right. split; [by apply Exists_cons_tl|]. split; [done|].
           destruct evs; [discriminate|]. exact Hlast.
    + eexists. rewrite !after_after. simpl. split; [reflexivity|].
      split; [|split].
      * intros k Hk. rewrite !elem_of_cons in Hk.
        destruct Hk as [?|[?|[?|[]%elem_of_nil]]]; discriminate.
      * intros e He. rewrite !elem_of_cons in He.
        destruct He as [->|[->|[->|[]%elem_of_nil]]]; auto.
      * right. split; [|done]. apply Exists_cons_hd. by rewrite Hsup.
Qed.

(** C8: the check rejects the empty list of instances, and so does the
    constructor when it is given no model: it raises before anything is
    done, and no translator comes to exist that could decode. *)
Theorem sanity_check_empty :
  sanity_check [] = Raise (AssertionError "target vocabularies differ.") /\
  (forall kw w, models kw = [] ->
     __init__ kw w = (Raise (AssertionError "target vocabularies differ."), w)).
Proof.
  split; [done|]. intros kw w Hm.
  unfold Translator.__init__. rewrite Hm. reflexivity.
Qed.

(** A constructor that returns has loaded every model, and its filter is the
    one selected from the first instance. *)
Lemma init_returns kw w self w' :
  __init__ kw w = (Ok self, w') ->
  sanity_check (map instance_of (models kw)) = Ok tt /\
  args self = kw /\
  n_models self = length (models kw) /\
  exists first first',
    map instance_of (models kw) !! 0%nat = Some first /\
    instances self !! 0%nat = Some first' /\
    train_eval_filters (opts first') = train_eval_filters (opts first) /\
    filter self =
      select_filter FilterChain (disable_filters kw)
        (train_eval_filters (opts first)).
Proof.
  unfold Translator.__init__, bind, lift, index.
  destruct (load_instances_run (models kw) [] w)
    as (evs & Hw & _ & _ & Hres).
  destruct (load_instances (models kw) [] w) as [r w1]. simpl in *.
  destruct Hres as [[_ ->]|(_ & -> & _)]; [|discriminate].
  destruct (sanity_check (map instance_of (models kw))) as [[]|]; [|discriminate].
  destruct (map instance_of (models kw) !! 0%nat) as [first|] eqn:Hfirst;
    simpl; [|discriminate].
  destruct (truthy (splits kw)); [|destruct (truthy (source kw))].
  - unfold ret. intros [= <- _]. simpl.
    do 3 (split; [done|]). by exists first, first.
  - destruct (parse_source _ _) as [input_dict|]; [|discriminate].
    unfold ret. intros [= <- _]. simpl.
    do 3 (split; [done|]).
    exists first, (set_data "new_set" input_dict first).
    split; [done|]. split; [|done].
    apply list_lookup_insert_eq. by apply lookup_lt_Some in Hfirst.
  - unfold ret. intros [= <- _]. simpl.
    do 3 (split; [done|]). by exists first, first.
Qed.

(** C5: when post-processing is disabled by the caller, or the first member
    of the ensemble declares no filter, the filter of the translator is the
    identity function, the same one in both cases, and [translate] returns
    the hypotheses of the beam search as they are. *)
Theorem filter_identity_when_disabled kw w self w' :
  __init__ kw w = (Ok self, w') ->
  disable_filters kw = true \/
  (exists first, instances self !! 0%nat = Some first /\
     train_eval_filters (opts first) = "") ->
  filter self = (fun s => s) /\
  (forall hyps, filter self hyps = hyps) /\
  exists first, instances self !! 0%nat = Some first /\
    forall split w1,
      fst (translate self split w1) =
        Ok (beam_search (instances self)
              (get_iterator first split (batch_size kw) true true)
              (beam_size kw) (max_len kw) (lp_alpha kw)).
Proof.
  intros Hinit Hoff.
  destruct (init_returns _ _ _ _ Hinit)
    as (_ & Hargs & _ & first & first' & _ & Hfirst' & Hef & Hfilter).
  assert (Hid : filter self = (fun s => s)).
  { rewrite Hfilter. unfold select_filter.
    destruct Hoff as [-> | (f & Hf & Hempty)]; [done|].
    assert (f = first') by congruence. subst f.
    rewrite <- Hef, Hempty. simpl. by rewrite orb_true_r. }
  split; [done|]. split; [by rewrite Hid|].
  exists first'. split; [done|]. intros split w1.
  unfold Translator.translate, bind, index, emit, ret.
  rewrite Hfirst'. simpl. by rewrite Hid, Hargs.
Qed.

(** Parsing a list of entries that all hold a colon. *)
Lemma parse_source_entries entries d :
  Forall (fun e => contains ":" e = true) entries ->
  exists kvs,
    entries = map Spec.entry kvs /\
    Forall (fun kv => contains ":" (fst kv) = false) kvs /\
    parse_source entries d =
      Ok (foldl (fun d kv => <[fst kv := Path (snd kv)]> d) d kvs).
Proof.
  intros Hall. revert d. induction Hall as [|e entries He _ IH]; intros d.
  - by exists [].
  - destruct (PyFacts.cut_contains _ _ He) as (k & r & Hcut).
    destruct (PyFacts.cut_Some _ _ _ _ Hcut) as [-> Hk].
    destruct (IH (<[k := Path r]> d)) as (kvs & -> & Hkvs & Hparse).
    exists ((k, r) :: kvs). split; [done|]. split; [by constructor|].
    simpl. unfold split1. by rewrite Hcut.
Qed.

(** An entry without a colon cannot be unpacked into a key and a path. *)
Lemma parse_source_no_colon e rest d :
  contains ":" e = false ->
  parse_source (e :: rest) d =
    Raise (ValueError "not enough values to unpack (expected 2, got 1)").
Proof.
  intros He. simpl. unfold split1. by rewrite PyFacts.cut_None.
Qed.

(** C7: with no named splits and a source mapping whose entries all hold a
    colon, the constructor returns a translator whose splits are the one
    synthetic split ['new']; the mapping is the entries [key:path] joined
    by commas, each cut at its first colon, and the first instance's data
    section binds, under 'new_set', each key to its path. *)
Theorem init_source_mapping kw w src :
  Forall supported (models kw) ->
  sanity_check (map instance_of (models kw)) = Ok tt ->
  truthy (splits kw) = false ->
  source kw = Some src ->
  src <> "" ->
  Forall (fun e => contains ":" e = true) (split "," src) ->
  exists self evs kvs first,
    __init__ kw w = (Ok self, after w evs) /\
    self_splits self = SplitList ["new"] /\
    src = join "," (map Spec.entry kvs) /\
    Forall (fun kv => contains "," (Spec.entry kv) = false /\
                      contains ":" (fst kv) = false) kvs /\
    instances self !! 0%nat = Some first /\
    data (opts first) !! "new_set" = Some (Spec.bindings kvs).
Proof.
  intros Hsup Hsane Hsplits Hsource Hne Hentries.
  destruct src as [|c src']; [done|]. set (src := String c src') in *.
  destruct (load_instances_run (models kw) [] w)
    as (evs & Hw & _ & _ & Hres).
  destruct Hres as [[_ Hok]|(Hex & _)].
  2:{ apply Exists_exists in Hex as (g & Hg & Hn).
      rewrite Forall_forall in Hsup. destruct Hn. by apply Hsup. }
  destruct (parse_source_entries _ ∅ Hentries) as (kvs & Hkvs & Hkeys & Hparse).
  assert (Hfirst : exists first, map instance_of (models kw) !! 0%nat = Some first).
  { destruct (map instance_of (models kw)) as [|first ?] eqn:Hm; [|by eexists].
    by vm_compute in Hsane. }
  destruct Hfirst as [first Hfirst].
  eexists _, evs, kvs, (set_data "new_set" (Spec.bindings kvs) first).
  split; [|split; [|split; [|split; [|split]]]].
  - unfold Translator.__init__, bind, lift, index.
    destruct (load_instances (models kw) [] w) as [r w1].
    simpl in Hw, Hok. subst r w1.
    rewrite Hsane, Hfirst. cbn beta iota. rewrite Hsplits, Hsource.
    change (truthy (Some src)) with true. cbv iota. change (default "" (Some src)) with src.
    rewrite Hparse. reflexivity.
  - done.
  - rewrite <- Hkvs. symmetry. apply PyFacts.join_split.
  - pose proof (PyFacts.split_pieces "," src) as Hpieces.
    rewrite Hkvs in Hpieces. rewrite Forall_fmap in Hpieces.
    rewrite Forall_forall in Hpieces, Hkeys. apply Forall_forall.
    intros kv Hkv. split; [by apply Hpieces | by apply Hkeys].
  - simpl. apply list_lookup_insert_eq. by apply lookup_lt_Some in Hfirst.
  - simpl. apply lookup_insert_eq.
Qed.

End Construction.

(** The constructor with no model at all. *)
Lemma sanity_check_empty_witness :
  Translator.__init__ Examples.load_pt_file Examples.Options_from_dict
    Examples.model_class Examples.FilterChain
    (Examples.kw [] (Some "test") None false) Examples.w0 =
  (Raise (AssertionError "target vocabularies differ."), Examples.w0).
Proof.
  apply (proj2 (sanity_check_empty _ _ Examples.load_pt_file
                  Examples.Options_from_dict Examples.model_class
                  Examples.FilterChain)).
  reflexivity.
Defined.

(** A model that declares the filter [de-bpe], with post-processing
    disabled by the caller. *)
Lemma filter_identity_when_disabled_witness :
  exists self w',
    Translator.__init__ Examples.load_pt_file Examples.Options_from_dict
      Examples.model_class Examples.FilterChain
      (Examples.kw ["NMT-de-bpe"] (Some "test") None true) Examples.w0 =
      (Ok self, w') /\
    filter self = (fun s => s) /\
    fst (Translator.translate Examples.get_iterator Examples.beam_search
           self "test" w') = Ok ["test 1"; "test 2"].
Proof.
  eexists _, _. split; [vm_compute; reflexivity|].
  destruct (filter_identity_when_disabled _ _ _ Examples.load_pt_file
              Examples.Options_from_dict Examples.model_class
              Examples.FilterChain Examples.get_iterator Examples.beam_search
              (Examples.kw ["NMT-de-bpe"] (Some "test") None true)
              Examples.w0 _ _ ltac:(vm_compute; reflexivity)
              (or_introl eq_refl))
    as (Hid & _ & first & Hfirst & Htr).
  split; [exact Hid|]. rewrite Htr. reflexivity.
Defined.

(** Two entries, the second with a colon in its path. *)
Lemma init_source_mapping_witness :
  exists self evs kvs first,
    Translator.__init__ Examples.load_pt_file Examples.Options_from_dict
      Examples.model_class Examples.FilterChain
      (Examples.kw ["NMT-de-bpe"] None (Some "en:/data/test.en,image:/data/c:d") false)
      Examples.w0 = (Ok self, after Examples.w0 evs) /\
    self_splits self = SplitList ["new"] /\
    "en:/data/test.en,image:/data/c:d" = join "," (map Spec.entry kvs) /\
    Forall (fun kv => contains "," (Spec.entry kv) = false /\
                      contains ":" (fst kv) = false) kvs /\
    instances self !! 0%nat = Some first /\
    data (opts first) !! "new_set" = Some (Spec.bindings kvs).
Proof.
  apply (init_source_mapping _ _ Examples.load_pt_file
           Examples.Options_from_dict Examples.model_class Examples.FilterChain).
  - repeat constructor.
  - vm_compute. reflexivity.
  - reflexivity.
  - reflexivity.
  - discriminate.
  - vm_compute. repeat constructor.
Defined.

(** *** Writing the hypotheses *)

(** C4: the file name is the base path, then the split unless it is 'new',
    then '.lp_' and the coefficient with one decimal when it is positive,
    then '.ens' and the number of models when there are several, then
    '.beam' and the beam width; the two names of the specification come
    out as given. *)
Theorem dump_output_name self split :
  dump_output self split =
    Spec.output_file_name (output (args self)) split (n_models self)
      (beam_size (args self)) (lp_alpha (args self)) /\
  dump_output (Examples.writer "out" 2 5 Examples.one) "test" =
    "out.test.lp_1.0.ens2.beam5" /\
  dump_output (Examples.writer "out" 1 4 (S754_zero false)) "new" = "out.beam4".
Proof.
  split; [|split; vm_compute; reflexivity].
  unfold dump_output, Spec.output_file_name.
  destruct (float_gt0 (lp_alpha (args self)));
    destruct (decide (1 < n_models self)%nat);
    destruct (decide (split = "new"));
    simpl; rewrite ?PyFacts.append_assoc; simpl; reflexivity.
Qed.

Lemma write_lines_run name hyps tr m loc content :
  write_lines name hyps
    {| trace := tr; files := <[name := content]> m; locate := loc |} =
    (Ok tt, {| trace := tr; files := <[name := content +:+ Spec.lines hyps]> m;
               locate := loc |}).
Proof.
  revert content. induction hyps as [|line rest IH]; intros content; simpl.
  - by rewrite PyFacts.append_nil_r.
  - unfold bind, write. simpl. rewrite alter_insert_eq, IH.
    rewrite !PyFacts.append_assoc. reflexivity.
Qed.

Lemma lines_concat hyps :
  Spec.lines hyps = String.concat "" (map (fun h => h +:+ String "010" "") hyps).
Proof.
  induction hyps as [|h rest IH]; [done|].
  destruct rest as [|h' rest]; [done|].
  change (Spec.lines (h :: h' :: rest))
    with (h +:+ String "010" (Spec.lines (h' :: rest))).
  rewrite IH.
  change (String.concat "" (map (fun h => h +:+ String "010" "") (h :: h' :: rest)))
    with ((h +:+ String "010" "") +:+
          String.concat "" (map (fun h => h +:+ String "010" "") (h' :: rest))).
  by rewrite PyFacts.append_assoc.
Qed.

(** What [dump] does when the path can be opened, and when it cannot. *)
Lemma dump_opened self hyps split w f :
  locate w (dump_output self split) = Ok f ->
  dump self hyps split w = (Ok tt, written w f (Spec.lines hyps)).
Proof.
  intros Hf. unfold dump, bind, open_w. rewrite Hf.
  unfold written at 1. by rewrite write_lines_run.
Qed.

Lemma dump_refused self hyps split w e :
  locate w (dump_output self split) = Raise e ->
  dump self hyps split w = (Raise e, w).
Proof. intros He. unfold dump, bind, open_w. by rewrite He. Qed.

(** C6: when the constructed path can be opened for writing, [dump] leaves
    in the file it leads to exactly the hypotheses in order, each followed
    by a newline, whatever the file held before; it writes nothing else
    and returns; an empty list leaves an empty file. When the path cannot
    be opened, [dump] raises what the open raises and writes nothing. *)
Theorem dump_writes_lines self hyps split w :
  (forall f, locate w (dump_output self split) = Ok f ->
     dump self hyps split w = (Ok tt, written w f (Spec.lines hyps)) /\
     files (snd (dump self hyps split w)) !! f = Some (Spec.lines hyps) /\
     (forall g, g <> f ->
        files (snd (dump self hyps split w)) !! g = files w !! g) /\
     files (snd (dump self [] split w)) !! f = Some "") /\
  (forall e, locate w (dump_output self split) = Raise e ->
     dump self hyps split w = (Raise e, w)) /\
  Spec.lines hyps = String.concat "" (map (fun h => h +:+ String "010" "") hyps).
Proof.
  split; [|split; [apply dump_refused | apply lines_concat]].
  intros f Hf. rewrite !(dump_opened _ _ _ _ f Hf). simpl.
  split; [done|]. split; [apply lookup_insert_eq|].
  split; [|apply lookup_insert_eq].
  intros g Hg. by apply lookup_insert_ne.
Qed.

(** Two hypotheses written over an older file; and a path into a
    directory that does not exist. *)
Lemma dump_writes_lines_witness :
  dump (Examples.writer "out" 2 5 Examples.one) ["a b"; "c"] "test"
    Examples.old_output =
    (Ok tt, written Examples.old_output "out.test.lp_1.0.ens2.beam5"
              (Spec.lines ["a b"; "c"])) /\
  dump (Examples.writer "missing/out" 2 5 Examples.one) ["a b"; "c"] "test"
    Examples.old_output =
    (Raise OSError, Examples.old_output).
Proof.
  split.
  - apply (proj1 (dump_writes_lines (Examples.writer "out" 2 5 Examples.one)
                    ["a b"; "c"] "test" Examples.old_output)).
    reflexivity.
  - apply (proj1 (proj2 (dump_writes_lines
                    (Examples.writer "missing/out" 2 5 Examples.one)
                    ["a b"; "c"] "test" Examples.old_output))).
    reflexivity.
Defined.

End TranslatorFacts.

(** ** Properties of the multi-label Multi30k data set *)

Module DatasetFacts.
Import Py MultiLabelMulti30k.

Lemma filter_keeps_all {A} (f : A -> bool) (l : list A) :
  (forall x, x ∈ l -> f x = true) -> List.filter f l = l.
Proof.
  induction l as [|a l IH]; intros Hall; simpl; [done|].
  rewrite (Hall a) by left. f_equal. apply IH. intros x Hx. apply Hall. by right.
Qed.

Lemma update_same h t v : update h t v t = v.
Proof. unfold update. by rewrite decide_True. Qed.

Lemma update_other h t v a : a <> t -> update h t v a = h a.
Proof. intros. unfold update. by rewrite decide_False. Qed.

Section Deleting.
Context {file V : Type} (data_dict : gmap string file).

(** Deleting the key at the head of what is left to visit, when the items
    visited so far are all present in [data_dict]. *)
Lemma odict_del_head (visited rest : odict V) k v :
  data_dict !! k = None ->
  NoDup (((k, v) :: rest).*1) ->
  odict_del k (List.filter (present data_dict) visited ++ (k, v) :: rest) =
    Ok (List.filter (present data_dict) visited ++ rest).
Proof.
  intros Hk Hnd. unfold odict_del.
  rewrite bool_decide_eq_true_2.
  2:{ rewrite fmap_app, elem_of_app. right. left. }
  f_equal. rewrite List.filter_app. simpl.
  rewrite String.eqb_refl. simpl. f_equal.
  - apply filter_keeps_all. intros [k' v'] Hin.
    apply list_elem_of_In, List.filter_In in Hin as [_ Hp].
    unfold present in Hp. apply bool_decide_eq_true_1 in Hp. simpl in *.
    apply negb_true_iff, String.eqb_neq. intros ->. rewrite Hk in Hp.
    by destruct Hp.
  - apply filter_keeps_all. intros [k' v'] Hin. simpl.
    apply negb_true_iff, String.eqb_neq. intros ->.
    simpl in Hnd. apply NoDup_cons in Hnd as [Hnotin _].
    apply Hnotin. apply list_elem_of_fmap. by exists (k, v').
Qed.

Lemma filter_present_snoc (visited : odict V) kv :
  List.filter (present data_dict) (visited ++ [kv]) =
  List.filter (present data_dict) visited ++
  (if present data_dict kv then [kv] else []).
Proof. rewrite List.filter_app. simpl. by destruct (present data_dict kv). Qed.

End Deleting.

Section Construction.
Context {file vocabulary image_folder one_hot multi_parallel : Type}.
Variable ImageFolderDataset : file -> Z -> Z -> Z -> bool -> image_folder.
Variable OneHotDataset : file -> vocabulary -> one_hot.
Variable MultiParallelDataset :
  list (DataSource * dataset image_folder one_hot) ->
  list (DataSource * dataset image_folder one_hot) -> multi_parallel.

Variable data_dict : gmap string file.
Variable vocabs : gmap string vocabulary.
Variable t : nat.
Variables (warmup : bool) (resize crop replicate : Z).

#[local] Abbreviation loop_srcs :=
  (loop_srcs (one_hot:=one_hot) ImageFolderDataset data_dict t
     warmup resize crop replicate).
#[local] Abbreviation loop_trgs :=
  (loop_trgs (image_folder:=image_folder) OneHotDataset data_dict vocabs t).
#[local] Abbreviation __init__ :=
  (__init__ ImageFolderDataset OneHotDataset MultiParallelDataset
        data_dict vocabs t warmup resize crop replicate).
#[local] Abbreviation kept := (List.filter (present data_dict)).

(** The first loop: it cannot raise; it leaves in [topology.srcs] the items
    that are present in [data_dict], and in [data] an entry for each of
    them that is an image folder. *)
Lemma loop_srcs_run rest : forall visited data h,
  srcs (h t) = kept visited ++ rest ->
  NoDup (rest.*1) ->
  exists data' h',
    loop_srcs rest data h = (Ok data', h') /\
    srcs (h' t) = kept (visited ++ rest) /\
    trgs (h' t) = trgs (h t) /\
    (forall a, a <> t -> h' a = h a) /\
    (forall k, is_Some (data !! k) -> is_Some (data' !! k)) /\
    (forall k ds, (k, ds) ∈ rest -> is_Some (data_dict !! k) ->
       _type ds = "ImageFolder" -> is_Some (data' !! k)).
Proof.
  induction rest as [|[src ds] rest IH]; intros visited data h Hcur Hnd.
  - exists data, h. rewrite !app_nil_r in *. simpl.
    repeat split; try done. by intros k ds' ?%elem_of_nil.
  - assert (Hnd' : NoDup (rest.*1)) by (simpl in Hnd; by apply NoDup_cons in Hnd as [_ ?]).
    simpl. destruct (data_dict !! src) as [f|] eqn:Hsrc.
    + assert (Hp : present data_dict (src, ds) = true).
      { unfold present. apply bool_decide_eq_true_2. simpl. by rewrite Hsrc. }
      assert (Hcur' : srcs (h t) = kept (visited ++ [(src, ds)]) ++ rest).
      { rewrite filter_present_snoc, Hp, <- app_assoc. done. }
      destruct (String.eqb (_type ds) "ImageFolder") eqn:Hty.
      * destruct (IH (visited ++ [(src, ds)])
                    (<[src := Images (ImageFolderDataset f resize crop replicate warmup)]> data)
                    h Hcur' Hnd')
          as (data' & h' & -> & Hs & Ht & Hfr & Hmono & Hdata).
        exists data', h'. rewrite <- app_assoc in Hs.
        repeat split; try done.
        -- intros k Hk. apply Hmono.
           destruct (decide (src = k)) as [->|];
             [by rewrite lookup_insert_eq | by rewrite lookup_insert_ne].
        -- intros k ds' [[= -> ->]|Hin]%elem_of_cons Hk Hds'; [|by eauto].
           apply Hmono. by rewrite lookup_insert_eq.
      * destruct (IH (visited ++ [(src, ds)]) data h Hcur' Hnd')
          as (data' & h' & -> & Hs & Ht & Hfr & Hmono & Hdata).
        exists data', h'. rewrite <- app_assoc in Hs.
        repeat split; try done.
        intros k ds' [[= -> ->]|Hin]%elem_of_cons Hk Hds'; [|by eauto].
        apply String.eqb_neq in Hty. done.
    + unfold bind at 1, del_src. rewrite Hcur.
      rewrite (odict_del_head data_dict visited rest src ds Hsrc Hnd).
      assert (Hp : present data_dict (src, ds) = false).
      { unfold present. apply bool_decide_eq_false_2. simpl. rewrite Hsrc.
        by intros []. }
      set (h1 := update h t _).
      assert (Hcur' : srcs (h1 t) = kept (visited ++ [(src, ds)]) ++ rest).
      { unfold h1. rewrite update_same. simpl.
        by rewrite filter_present_snoc, Hp, app_nil_r. }
      destruct (IH (visited ++ [(src, ds)]) data h1 Hcur' Hnd')
        as (data' & h' & -> & Hs & Ht & Hfr & Hmono & Hdata).
      exists data', h'. rewrite <- app_assoc in Hs.
      repeat split; try done.
      * rewrite Ht. unfold h1. by rewrite update_same.
      * intros a Ha. rewrite (Hfr a Ha). unfold h1. by apply update_other.
      * intros k ds' [[= -> ->]|Hin]%elem_of_cons Hk Hds'; [|by eauto].
        rewrite Hsrc in Hk. by destruct Hk.
Qed.

(** The second loop: it raises only for a target that has data but no
    vocabulary; otherwise it leaves in [topology.trgs] the items that are
    present in [data_dict], with an entry in [data] for each. *)
Lemma loop_trgs_run rest : forall visited data h,
  trgs (h t) = kept visited ++ rest ->
  NoDup (rest.*1) ->
  exists r h',
    loop_trgs rest data h = (r, h') /\
    srcs (h' t) = srcs (h t) /\
    (forall a, a <> t -> h' a = h a) /\
    match r with
    | Ok data' =>
        trgs (h' t) = kept (visited ++ rest) /\
        (forall k, is_Some (data !! k) -> is_Some (data' !! k)) /\
        (forall k ds, (k, ds) ∈ rest -> is_Some (data_dict !! k) ->
           is_Some (data' !! k))
    | Raise e =>
        exists k, e = KeyError k /\ k ∈ rest.*1 /\
          is_Some (data_dict !! k) /\ vocabs !! k = None
    end.
Proof.
  induction rest as [|[trg ds] rest IH]; intros visited data h Hcur Hnd.
  - exists (Ok data), h. rewrite !app_nil_r in *. simpl.
    repeat split; try done. by intros k ds' ?%elem_of_nil.
  - assert (Hnd' : NoDup (rest.*1)) by (simpl in Hnd; by apply NoDup_cons in Hnd as [_ ?]).
    simpl. destruct (data_dict !! trg) as [f|] eqn:Htrg.
    + assert (Hp : present data_dict (trg, ds) = true).
      { unfold present. apply bool_decide_eq_true_2. simpl. by rewrite Htrg. }
      assert (Hcur' : trgs (h t) = kept (visited ++ [(trg, ds)]) ++ rest).
      { rewrite filter_present_snoc, Hp, <- app_assoc. done. }
      destruct (vocabs !! trg) as [v|] eqn:Hv.
      * destruct (IH (visited ++ [(trg, ds)])
                    (<[trg := Labels (OneHotDataset f v)]> data) h Hcur' Hnd')
          as (r & h' & -> & Hs & Hfr & Hr).
        exists r, h'. do 3 (split; [done|]).
        destruct r as [data'|e].
        -- destruct Hr as (Ht & Hmono & Hdata). rewrite <- app_assoc in Ht.
           repeat split; try done.
           ++ intros k Hk. apply Hmono.
              destruct (decide (trg = k)) as [->|];
                [by rewrite lookup_insert_eq | by rewrite lookup_insert_ne].
           ++ intros k ds' [[= -> ->]|Hin]%elem_of_cons Hk; [|by eauto].
              apply Hmono. by rewrite lookup_insert_eq.
        -- destruct Hr as (k & -> & Hin & Hk & Hnone).
           exists k. repeat split; try done. simpl. by right.
      * exists (Raise (KeyError trg)), h. do 3 (split; [done|]).
        exists trg. split; [done|]. split; [by left|].
        split; [rewrite ?Htrg; by eexists | done].
    + unfold bind at 1, del_trg. rewrite Hcur.
      rewrite (odict_del_head data_dict visited rest trg ds Htrg Hnd).
      assert (Hp : present data_dict (trg, ds) = false).
      { unfold present. apply bool_decide_eq_false_2. simpl. rewrite Htrg.
        by intros []. }
      set (h1 := update h t _).
      assert (Hcur' : trgs (h1 t) = kept (visited ++ [(trg, ds)]) ++ rest).
      { unfold h1. rewrite update_same. simpl.
        by rewrite filter_present_snoc, Hp, app_nil_r. }
      destruct (IH (visited ++ [(trg, ds)]) data h1 Hcur' Hnd')
        as (r & h' & -> & Hs & Hfr & Hr).
      exists r, h'. split; [done|]. split; [|split].
      * rewrite Hs. unfold h1. by rewrite update_same.
      * intros a Ha. rewrite (Hfr a Ha). unfold h1. by apply update_other.
      * destruct r as [data'|e].
        -- destruct Hr as (Ht & Hmono & Hdata). rewrite <- app_assoc in Ht.
           repeat split; try done.
           intros k ds' [[= -> ->]|Hin]%elem_of_cons Hk; [|by eauto].
           rewrite Htrg in Hk. by destruct Hk.
        -- destruct Hr as (k & -> & Hin & Hk & Hnone).
           exists k. repeat split; try done. simpl. by right.
Qed.

Lemma comprehension_run items (data : gmap string (dataset image_folder one_hot)) :
  match comprehension items data with
  | Ok l => l.*1 = items.*2
  | Raise e => exists k, e = KeyError k /\ k ∈ items.*1 /\ data !! k = None
  end.
Proof.
  induction items as [|[k v] items IH]; simpl; [done|].
  destruct (data !! k) eqn:Hk.
  - destruct (comprehension items data) as [l|e]; simpl; [by f_equal|].
    destruct IH as (k' & -> & Hin & Hnone). exists k'. repeat split; try done.
    by right.
  - exists k. repeat split; try done. by left.
Qed.

(** C10: the constructor changes the caller's topology object itself, the
    one at the address it was given and keeps in [self.topology]. Its
    source keys become exactly the original ones that have an entry in
    [data_dict], in their order and with their values, whether or not the
    constructor later raises; when it returns, the same holds of the target
    keys; no other object changes. It returns whenever every source with
    data is an image folder and every target with data has a vocabulary. *)
Theorem init_prunes_topology (h : heap) :
  NoDup ((srcs (h t)).*1) ->
  NoDup ((trgs (h t)).*1) ->
  exists r h',
    __init__ h = (r, h') /\
    srcs (h' t) = kept (srcs (h t)) /\
    (forall a, a <> t -> h' a = h a) /\
    (forall self, r = Ok self ->
       topology self = t /\ trgs (h' t) = kept (trgs (h t))) /\
    ((forall k ds, (k, ds) ∈ srcs (h t) -> is_Some (data_dict !! k) ->
        _type ds = "ImageFolder") ->
     (forall k ds, (k, ds) ∈ trgs (h t) -> is_Some (data_dict !! k) ->
        is_Some (vocabs !! k)) ->
     exists self, r = Ok self).
Proof.
  intros Hnds Hndt. unfold MultiLabelMulti30k.__init__, bind, read, lift, ret.
  destruct (loop_srcs_run (srcs (h t)) [] ∅ h eq_refl Hnds)
    as (data1 & h1 & -> & Hs1 & Ht1 & Hfr1 & _ & Hdata1).
  simpl in Hs1.
  assert (Hcur : trgs (h1 t) = kept [] ++ trgs (h t)) by (by rewrite Ht1).
  destruct (loop_trgs_run (trgs (h t)) [] data1 h1 Hcur Hndt)
    as (r2 & h2 & Hrun2 & Hs2 & Hfr2 & Hr2).
  rewrite Ht1, Hrun2.
  assert (Hfr : forall a, a <> t -> h2 a = h a).
  { intros a Ha. by rewrite Hfr2, Hfr1. }
  destruct r2 as [data2|e].
  - destruct Hr2 as (Ht2 & Hmono2 & Hdata2). simpl in Ht2.
    rewrite Hs2, Hs1, Ht2.
    pose proof (comprehension_run (kept (srcs (h t))) data2) as Hc1.
    pose proof (comprehension_run (kept (trgs (h t))) data2) as Hc2.
    destruct (comprehension (kept (srcs (h t))) data2) as [l1|e1].
    + destruct (comprehension (kept (trgs (h t))) data2) as [l2|e2].
      * eexists _, h2. split; [reflexivity|].
        rewrite Hs2, Hs1. do 2 (split; [done|]).
        split; [by intros self [= <-]|]. eauto.
      * eexists _, h2. split; [reflexivity|].
        rewrite Hs2, Hs1. do 2 (split; [done|]).
        split; [done|]. intros _ Hvoc.
        destruct Hc2 as (k & _ & Hin & Hnone).
        apply list_elem_of_fmap in Hin as ([k' ds] & -> & Hin).
        apply list_elem_of_In, List.filter_In in Hin as [Hin Hp].
        apply list_elem_of_In in Hin.
        apply bool_decide_eq_true_1 in Hp. simpl in *.
        destruct (Hdata2 k' ds Hin Hp) as [? Hsome]. congruence.
    + eexists _, h2. split; [reflexivity|].
      rewrite Hs2, Hs1. do 2 (split; [done|]).
      split; [done|]. intros Himg _.
      destruct Hc1 as (k & _ & Hin & Hnone).
      apply list_elem_of_fmap in Hin as ([k' ds] & -> & Hin).
      apply list_elem_of_In, List.filter_In in Hin as [Hin Hp].
      apply list_elem_of_In in Hin.
      apply bool_decide_eq_true_1 in Hp. simpl in *.
      destruct (Hmono2 k' (Hdata1 k' ds Hin Hp (Himg k' ds Hin Hp)))
        as [? Hsome]. congruence.
  - eexists _, h2. split; [reflexivity|].
    rewrite Hs2, Hs1. do 2 (split; [done|]).
    split; [done|]. intros _ Hvoc.
    destruct Hr2 as (k & _ & Hin & Hk & Hnone).
    apply list_elem_of_fmap in Hin as ([k' ds] & -> & Hin). simpl in *.
    destruct (Hvoc k' ds Hin Hk) as [? Hsome]. congruence.
Qed.

End Construction.

(** Sources [en] and [image], targets [labels] and [de], with data for
    [image] and [labels] only: [en] and [de] are deleted. *)
Lemma init_prunes_topology_witness :
  exists r h',
    MultiLabelMulti30k.__init__ Examples.ImageFolderDataset Examples.OneHotDataset
      Examples.MultiParallelDataset Examples.data_dict Examples.vocabs
      7%nat false 256 224 1 Examples.heap0 = (r, h') /\
    srcs (h' 7%nat) = [("image", Examples.image)] /\
    (forall a, a <> 7%nat -> h' a = Examples.heap0 a) /\
    (forall self, r = Ok self ->
       topology self = 7%nat /\ trgs (h' 7%nat) = [("labels", Examples.labels)]) /\
    exists self, r = Ok self.
Proof.
  destruct (init_prunes_topology Examples.ImageFolderDataset
              Examples.OneHotDataset Examples.MultiParallelDataset
              Examples.data_dict Examples.vocabs 7%nat false 256 224 1
              Examples.heap0)
    as (r & h' & Hrun & Hs & Hfr & Hok & Hret).
  - apply (bool_decide_unpack _). vm_compute. exact I.
  - apply (bool_decide_unpack _). vm_compute. exact I.
  - exists r, h'. split; [exact Hrun|]. split; [exact Hs|].
    split; [exact Hfr|]. split; [exact Hok|]. apply Hret.
    + intros k ds Hin [f Hk]. simpl in Hin.
      apply elem_of_cons in Hin as [[= -> ->]|Hin]; [by vm_compute in Hk|].
      apply elem_of_cons in Hin as [[= -> ->]|Hin]; [reflexivity|].
      by apply elem_of_nil in Hin.
    + intros k ds Hin [f Hk]. simpl in Hin.
      apply elem_of_cons in Hin as [[= -> ->]|Hin]; [by eexists|].
      apply elem_of_cons in Hin as [[= -> ->]|Hin]; [by vm_compute in Hk|].
      by apply elem_of_nil in Hin.
Defined.

(** *** Loaders and their batches *)

Lemma BatchSampler_concat batch_size sampler batch :
  concat (BatchSampler batch_size sampler batch) = batch ++ sampler.
Proof.
  revert batch. induction sampler as [|idx rest IH]; intros batch; simpl.
  - destruct batch; simpl; [done|]. by rewrite !app_nil_r.
  - destruct (_ =? _); simpl.
    + rewrite IH. simpl. by rewrite <- app_assoc.
    + rewrite IH. by rewrite <- app_assoc.
Qed.

Lemma BatchSampler_sizes batch_size sampler batch :
  0 < batch_size ->
  Z.of_nat (length batch) < batch_size ->
  Forall (fun b => (0 < length b)%nat /\ Z.of_nat (length b) <= batch_size)
         (BatchSampler batch_size sampler batch).
Proof.
  intros Hpos. revert batch.
  induction sampler as [|idx rest IH]; intros batch Hlt; simpl.
  - destruct batch as [|i batch]; [constructor|].
    constructor; [|constructor]. simpl in *. lia.
  - assert (Hlen : length (batch ++ [idx]) = S (length batch))
      by (rewrite length_app; simpl; lia).
    destruct (Z.of_nat (length (batch ++ [idx])) =? batch_size) eqn:Hfull.
    + apply Z.eqb_eq in Hfull. constructor; [lia|].
      apply IH. simpl. lia.
    + apply Z.eqb_neq in Hfull. apply IH. lia.
Qed.

Section Iterating.
Context {image_folder one_hot item : Type}.
Variable item_of : dataset image_folder one_hot -> nat -> item.
Variable len : MultiParallel.MultiParallelDataset image_folder one_hot -> nat.
Variable RandomSampler :
  MultiParallel.MultiParallelDataset image_folder one_hot -> outcome (list nat).

#[local] Abbreviation parallel :=
  (MultiParallel.MultiParallelDataset image_folder one_hot).
#[local] Abbreviation getitem := (MultiParallel.getitem item_of).
#[local] Abbreviation get_iterator :=
  (get_iterator MultiParallel.sources MultiParallel.data_sources len
     (MultiParallel.get_collate (item:=item)) RandomSampler).

Lemma assoc_elem {V} key (d : list (DataSource * V)) :
  key ∈ d.*1 -> exists v, MultiParallel.assoc key d = Some v /\ (key, v) ∈ d.
Proof.
  induction d as [|[k v] d IH]; simpl; intros Hin.
  - by apply elem_of_nil in Hin.
  - destruct (decide (k = key)) as [->|Hne].
    + exists v. split; [done|]. left.
    + apply elem_of_cons in Hin as [Heq|Hin]; [congruence|].
      destruct (IH Hin) as (v' & Hv & Hel). exists v'. split; [done|]. by right.
Qed.

Lemma assoc_app_l {V} key (d1 d2 : list (DataSource * V)) v :
  MultiParallel.assoc key d1 = Some v ->
  MultiParallel.assoc key (d1 ++ d2) = Some v.
Proof.
  induction d1 as [|[k v'] d1 IH]; simpl; [done|].
  destruct (decide (k = key)); [done|]. apply IH.
Qed.

Lemma assoc_app_r {V} key (d1 d2 : list (DataSource * V)) :
  key ∉ d1.*1 ->
  MultiParallel.assoc key (d1 ++ d2) = MultiParallel.assoc key d2.
Proof.
  induction d1 as [|[k v'] d1 IH]; simpl; [done|]. intros Hnot.
  apply not_elem_of_cons in Hnot as [Hne Hnot].
  destruct (decide (k = key)); [congruence|]. by apply IH.
Qed.

Lemma assoc_getitem key (d : list (DataSource * dataset image_folder one_hot)) idx :
  MultiParallel.assoc key (map (fun kv => (fst kv, item_of (snd kv) idx)) d) =
  (fun ds => item_of ds idx) <$> MultiParallel.assoc key d.
Proof.
  induction d as [|[k v] d IH]; simpl; [done|].
  destruct (decide (k = key)); [done|]. apply IH.
Qed.

(** Every example of the data set has the data of the first data set
    given under a key. *)
Lemma column_getitem key (d : parallel) ds indices :
  MultiParallel.assoc key
    (MultiParallel.src_datasets d ++ MultiParallel.trg_datasets d) = Some ds ->
  MultiParallel.column key (map (getitem d) indices) =
    Ok (map (item_of ds) indices).
Proof.
  intros Hds. induction indices as [|idx rest IH]; simpl; [done|].
  unfold MultiParallel.getitem at 1. rewrite assoc_getitem, Hds. simpl.
  by rewrite IH.
Qed.

(** Collating over keys of the data set gives these keys, each with the
    data of its data set at the indices of the batch. *)
Lemma get_collate_run (d : parallel) keys indices :
  (forall key, key ∈ keys -> key ∈ MultiParallel.data_sources d) ->
  exists b,
    MultiParallel.get_collate keys (map (getitem d) indices) = Ok b /\
    b.*1 = keys /\
    forall key items, (key, items) ∈ b ->
      exists ds,
        MultiParallel.assoc key
          (MultiParallel.src_datasets d ++ MultiParallel.trg_datasets d)
          = Some ds /\
        items = map (item_of ds) indices.
Proof.
  induction keys as [|key keys IH]; intros Hkeys; simpl.
  - exists []. split; [done|]. split; [done|]. intros key items Hin.
    by apply elem_of_nil in Hin.
  - destruct (assoc_elem key
                (MultiParallel.src_datasets d ++ MultiParallel.trg_datasets d))
      as (ds & Hds & _).
    { rewrite fmap_app. apply Hkeys. left. }
    rewrite (column_getitem key d ds indices Hds).
    destruct IH as (b & -> & Hfst & Hdata).
    { intros k Hk. apply Hkeys. by right. }
    eexists. split; [reflexivity|]. split; [by rewrite fmap_cons, Hfst|].
    intros k items Hin. apply elem_of_cons in Hin as [[= -> ->]|Hin].
    + by exists ds.
    + by apply Hdata.
Qed.

(** One pass over a loader that collates over keys of its data set. *)
Lemma fetch_run (loader : DataLoader parallel (list (DataSource * item))
                            (list (DataSource * list item)))
  keys batches :
  collate_fn loader = MultiParallel.get_collate keys ->
  (forall key, key ∈ keys -> key ∈ MultiParallel.data_sources (dl_dataset loader)) ->
  exists bs,
    fetch getitem loader batches = Ok bs /\
    Forall2 (fun indices b =>
               b.*1 = keys /\
               forall key items, (key, items) ∈ b ->
                 exists ds,
                   MultiParallel.assoc key
                     (MultiParallel.src_datasets (dl_dataset loader) ++
                      MultiParallel.trg_datasets (dl_dataset loader)) = Some ds /\
                   items = map (item_of ds) indices)
            batches bs.
Proof.
  intros Hcollate Hkeys.
  induction batches as [|indices rest IH]; simpl.
  - exists []. split; [done|]. constructor.
  - rewrite Hcollate.
    destruct (get_collate_run (dl_dataset loader) keys indices Hkeys)
      as (b & -> & Hfst & Hdata).
    destruct IH as (bs & -> & Hall).
    exists (b :: bs). split; [done|]. by constructor.
Qed.

Lemma DataLoader_new_positive (d : parallel) (sh : bool) batch_size
  (c : collate (list (DataSource * item)) (list (DataSource * list item))) order :
  0 < batch_size ->
  (if sh then RandomSampler d else Ok (SequentialSampler len d)) = Ok order ->
  DataLoader_new len RandomSampler d sh batch_size c =
    Ok {| dl_dataset := d; shuffle := sh; dl_batch_size := batch_size;
          collate_fn := c; sampler := order |}.
Proof.
  intros Hpos Horder. unfold DataLoader_new. rewrite Horder.
  by rewrite bool_decide_eq_false_2 by lia.
Qed.

(** C9: for every positive batch size, [get_iterator] with
    [inference=True] returns a loader that does not shuffle: its sampler
    yields the indices from 0 in order, so its batches, one after the
    other, are the examples in their original order, none of them empty or
    longer than the batch size. A loader asked for with
    [drop_targets=True] collates over the source keys and no other: each
    batch of a pass has exactly the source keys, under each of them the
    data of a source-side data set at the indices of the batch, and no key
    that is a target key only; without [drop_targets] the keys are those of
    both sides. For a batch size that is not positive no loader is
    returned: with [inference=True] the call raises the ValueError of the
    batch sampler. *)
Theorem get_iterator_flags (self : MultiLabelMulti30kDataset parallel)
  (batch_size : Z) :
  (0 < batch_size ->
   (forall drop_targets, exists loader,
      get_iterator self batch_size drop_targets true = Ok loader /\
      shuffle loader = false /\
      dl_batch_size loader = batch_size /\
      dl_dataset loader = self_dataset self /\
      sampler loader = seq 0 (len (self_dataset self)) /\
      concat (BatchSampler batch_size (sampler loader) []) =
        seq 0 (len (self_dataset self)) /\
      Forall (fun b => (0 < length b)%nat /\ Z.of_nat (length b) <= batch_size)
             (BatchSampler batch_size (sampler loader) [])) /\
   (forall (drop_targets inference : bool) order,
      (if inference then Ok (seq 0 (len (self_dataset self)))
       else RandomSampler (self_dataset self)) = Ok order ->
      exists loader batches,
        get_iterator self batch_size drop_targets inference = Ok loader /\
        shuffle loader = negb inference /\
        sampler loader = order /\
        __iter__ getitem loader = Ok batches /\
        Forall2
          (fun indices b =>
             b.*1 = (if drop_targets
                     then MultiParallel.sources (self_dataset self)
                     else MultiParallel.data_sources (self_dataset self)) /\
             (drop_targets = true ->
              (forall key, key ∈ MultiParallel.targets (self_dataset self) ->
                 key ∉ MultiParallel.sources (self_dataset self) ->
                 key ∉ b.*1) /\
              (forall key items, (key, items) ∈ b ->
                 exists ds,
                   (key, ds) ∈ MultiParallel.src_datasets (self_dataset self) /\
                   items = map (item_of ds) indices)))
          (BatchSampler batch_size order []) batches)) /\
  (batch_size <= 0 ->
   forall drop_targets inference, exists e,
     get_iterator self batch_size drop_targets inference = Raise e /\
     (inference = true ->
      e = ValueError ("batch_size should be a positive integer value, " +:+
                      "but got batch_size=" +:+ str_int batch_size))).
Proof.
  set (d := self_dataset self).
  split; [intros Hpos; split|].
  - intros drop_targets. unfold MultiLabelMulti30k.get_iterator. simpl.
    erewrite DataLoader_new_positive; [|done|reflexivity].
    eexists. split; [reflexivity|]. simpl.
    do 4 (split; [done|]). split.
    + apply BatchSampler_concat.
    + apply BatchSampler_sizes; simpl; lia.
  - intros drop_targets inference order Horder.
    unfold MultiLabelMulti30k.get_iterator.
    set (keys := if drop_targets then MultiParallel.sources d
                 else MultiParallel.data_sources d).
    assert (Hkeys : forall key, key ∈ keys -> key ∈ MultiParallel.data_sources d).
    { intros key Hkey. unfold keys in Hkey. destruct drop_targets; [|done].
      unfold MultiParallel.data_sources. apply elem_of_app. by left. }
    erewrite DataLoader_new_positive; [|done|by destruct inference].
    set (loader := {| dl_dataset := d; shuffle := negb inference;
                      dl_batch_size := batch_size;
                      collate_fn := MultiParallel.get_collate (item:=item) keys;
                      sampler := order |}).
    destruct (fetch_run loader keys (BatchSampler batch_size order [])
                eq_refl Hkeys) as (batches & Hfetch & Hall).
    exists loader, batches. split; [done|]. do 2 (split; [done|]).
    split; [exact Hfetch|].
    eapply Forall2_impl; [exact Hall|]. simpl.
    intros indices b [Hfst Hdata]. split; [done|]. intros ->.
    unfold keys in Hfst. split.
    + intros key _ Hnot. by rewrite Hfst.
    + intros key items Hin. destruct (Hdata key items Hin) as (ds & Hds & ->).
      assert (Hkey : key ∈ MultiParallel.sources d).
      { rewrite <- Hfst. apply list_elem_of_fmap. by exists (key, map (item_of ds) indices). }
      destruct (assoc_elem key (MultiParallel.src_datasets d) Hkey)
        as (ds' & Hds' & Hel).
      rewrite (assoc_app_l _ _ (MultiParallel.trg_datasets d) _ Hds') in Hds.
      injection Hds as <-. by exists ds'.
  - intros Hneg drop_targets inference.
    unfold MultiLabelMulti30k.get_iterator, DataLoader_new.
    destruct inference; simpl.
    + rewrite bool_decide_eq_true_2 by done. eexists. by split.
    + destruct (RandomSampler _) as [order|e].
      * rewrite bool_decide_eq_true_2 by done. eexists. by split.
      * exists e. by split.
Qed.

End Iterating.

(** Five examples in batches of two, for decoding: the loader goes
    through them in order and its batches hold the images only. *)
Lemma get_iterator_flags_witness :
  0 < 2 /\
  exists loader batches,
    get_iterator MultiParallel.sources MultiParallel.data_sources Examples.len
      MultiParallel.get_collate Examples.RandomSampler
      Examples.test_set 2 true true = Ok loader /\
    shuffle loader = false /\
    sampler loader = [0; 1; 2; 3; 4]%nat /\
    __iter__ (MultiParallel.getitem Examples.item_of) loader = Ok batches /\
    Forall2 (fun indices b => b.*1 = [Examples.image])
            [[0; 1]; [2; 3]; [4]]%nat batches.
Proof.
  split; [lia|].
  destruct (get_iterator_flags Examples.item_of Examples.len
              Examples.RandomSampler Examples.test_set 2) as [Hpos _].
  destruct (Hpos ltac:(lia)) as [_ Hbatches].
  destruct (Hbatches true true [0; 1; 2; 3; 4]%nat eq_refl)
    as (loader & batches & Hget & Hshuffle & Hsampler & Hiter & Hall).
  exists loader, batches. do 4 (split; [done|]).
  eapply Forall2_impl; [exact Hall|]. simpl. by intros indices b [-> _].
Defined.

(** With a batch size of 0 the call returns no loader, also for decoding. *)
Lemma get_iterator_batch_size_zero :
  get_iterator MultiParallel.sources MultiParallel.data_sources Examples.len
    (MultiParallel.get_collate (item:=string)) Examples.RandomSampler
    Examples.test_set 0 true true =
    Raise (ValueError
             "batch_size should be a positive integer value, but got batch_size=0") /\
  ~ (forall batch_size, exists loader,
       get_iterator MultiParallel.sources MultiParallel.data_sources Examples.len
         (MultiParallel.get_collate (item:=string)) Examples.RandomSampler
         Examples.test_set batch_size true true = Ok loader /\
       shuffle loader = false).
Proof.
  split; [reflexivity|].
  intros Hall. destruct (Hall 0) as (loader & Hget & _). discriminate Hget.
Qed.

End DatasetFacts.


(** ** More on the Translator: loading, splits and writing *)

Module TranslatorMore.
Import Py Translator.

Section Construction.
Variables weights raw_options loader : Type.
Variable load_pt_file : string -> weights * raw_options.
Variable Options_from_dict : raw_options -> options.
Variable model_class : string -> options -> instance.
Variable FilterChain : string -> list string -> list string.
Variable get_iterator : instance -> string -> Z -> bool -> bool -> loader.
Variable beam_search :
  list instance -> loader -> Z -> Z -> spec_float -> list string.

#[local] Abbreviation instance_of :=
  (instance_of load_pt_file Options_from_dict model_class).
#[local] Abbreviation load_instances :=
  (load_instances load_pt_file Options_from_dict model_class).
#[local] Abbreviation __init__ :=
  (__init__ load_pt_file Options_from_dict model_class FilterChain).
#[local] Abbreviation translate := (translate get_iterator beam_search).
#[local] Abbreviation supported :=
  (fun model_file => supports_beam_search (instance_of model_file) = true).
#[local] Abbreviation type_of :=
  (fun model_file =>
     train_model_type (Options_from_dict (snd (load_pt_file model_file)))).
#[local] Abbreviation load_trace := (Behaviour.load_trace type_of).

(** Loading a list of models that all support beam search. *)
Lemma load_instances_all model_files : forall acc w,
  Forall supported model_files ->
  load_instances model_files acc w =
    (Ok (acc ++ map instance_of model_files),
     after w (load_trace (length acc) model_files)).
Proof.
  induction model_files as [|f rest IH]; intros acc w Hall.
  - simpl. by rewrite app_nil_r, TranslatorFacts.after_nil.
  - apply Forall_cons in Hall as [Hf Hrest]. simpl in Hf.
    simpl. unfold bind, emit. simpl.
    fold (instance_of f). rewrite Hf. simpl.
    rewrite IH by done. rewrite !TranslatorFacts.after_after.
    rewrite length_app, Nat.add_1_r, <- app_assoc. reflexivity.
Qed.

(** Loading a list whose first model without beam search is [f]. *)
Lemma load_instances_first_refusal pre f post acc w :
  Forall supported pre ->
  supports_beam_search (instance_of f) = false ->
  load_instances (pre ++ f :: post) acc w =
    (Raise (SystemExit 1),
     after w (load_trace (length acc) pre ++
              Behaviour.refusal (length acc + length pre) f (type_of f))).
Proof.
  revert acc w. induction pre as [|g pre IH]; intros acc w Hall Hf.
  - simpl. unfold bind, emit. simpl. fold (instance_of f). rewrite Hf. simpl.
    rewrite !TranslatorFacts.after_after, Nat.add_0_r. reflexivity.
  - apply Forall_cons in Hall as [Hg Hpre]. simpl in Hg.
    simpl. unfold bind, emit. simpl.
    fold (instance_of g). rewrite Hg. simpl.
    rewrite IH by done. rewrite !TranslatorFacts.after_after.
    rewrite length_app. simpl.
    replace (length acc + 1 + length pre)%nat
      with (length acc + S (length pre))%nat by lia.
    rewrite Nat.add_1_r. reflexivity.
Qed.

(** X1: The constructor reads, builds and prepares the models one after the
    other in the order of [self.models], and does nothing else; when it
    returns, [n_models] is the number of instances and the i-th instance
    is the one built from the i-th model file, as it was built. The one
    exception is the first instance when no splits are named and a source
    mapping is given: its data section has the parsed mapping under
    'new_set', its other data sections and all its other attributes are as
    built. *)
Theorem init_loads_in_order kw w :
  Forall supported (models kw) ->
  snd (__init__ kw w) = after w (load_trace 0 (models kw)) /\
  forall self, fst (__init__ kw w) = Ok self ->
    n_models self = length (models kw) /\
    length (instances self) = length (models kw) /\
    forall i f, models kw !! i = Some f ->
      supports_beam_search (instance_of f) = true /\
      (i <> 0%nat \/ truthy (splits kw) = true \/ truthy (source kw) = false ->
       instances self !! i = Some (instance_of f)) /\
      (i = 0%nat -> truthy (splits kw) = false -> truthy (source kw) = true ->
       exists input_dict,
         parse_source (split "," (default "" (source kw))) ∅ = Ok input_dict /\
         instances self !! i =
           Some {| opts :=
                     {| train_model_type := train_model_type (opts (instance_of f));
                        train_eval_filters := train_eval_filters (opts (instance_of f));
                        data := <["new_set" := input_dict]>
                                  (data (opts (instance_of f))) |};
                   supports_beam_search := supports_beam_search (instance_of f);
                   n_trg_vocab := n_trg_vocab (instance_of f) |}).
Proof.
  intros Hall. unfold Translator.__init__, bind, lift, index.
  rewrite (load_instances_all _ [] w Hall). simpl.
  set (insts := map instance_of (models kw)).
  set (w1 := after w _).
  assert (Hat : forall i f, models kw !! i = Some f ->
            insts !! i = Some (instance_of f) /\
            supports_beam_search (instance_of f) = true).
  { intros i f Hi. unfold insts. rewrite list_lookup_fmap, Hi. split; [done|].
    rewrite Forall_lookup in Hall. by apply (Hall i f). }
  destruct (sanity_check insts) as [[]|e]; [|by split].
  destruct (insts !! 0%nat) as [first|] eqn:Hfirst; simpl; [|by split].
  destruct (truthy (splits kw)) eqn:Hsplits;
    [|destruct (truthy (source kw)) eqn:Hsource].
  - split; [done|]. intros self [= <-]. simpl.
    split; [done|]. split; [by unfold insts; rewrite length_map|].
    intros i f Hi. destruct (Hat i f Hi) as [Hx Hs].
    split; [done|]. split; [done|]. intros _ [=].
  - destruct (parse_source _ _) as [input_dict|e] eqn:Hparse; simpl; [|by split].
    split; [done|]. intros self [= <-]. simpl.
    split; [done|].
    split; [by unfold insts; rewrite length_insert, length_map|].
    intros i f Hi. destruct (Hat i f Hi) as [Hx Hs]. split; [done|]. split.
    + intros [Hi0|[[=]|[=]]]. by rewrite list_lookup_insert_ne.
    + intros -> _ _.
      assert (first = instance_of f) by congruence. subst first.
      exists input_dict. split; [done|].
      rewrite list_lookup_insert_eq by (by apply lookup_lt_Some in Hx).
      reflexivity.
  - split; [done|]. intros self [= <-]. simpl.
    split; [done|]. split; [by unfold insts; rewrite length_map|].
    intros i f Hi. destruct (Hat i f Hi) as [Hx Hs].
    split; [done|]. split; [done|]. intros _ _ [=].
Qed.

(** The first model of a list that lacks beam search. *)
Lemma first_refusal model_files : forall i f,
  model_files !! i = Some f ->
  supports_beam_search (instance_of f) = false ->
  exists pre g post,
    model_files = pre ++ g :: post /\
    Forall supported pre /\
    supports_beam_search (instance_of g) = false /\
    (length pre <= i)%nat.
Proof.
  induction model_files as [|g0 rest IH]; intros i f Hi Hf; [done|].
  destruct (supports_beam_search (instance_of g0)) eqn:Hg0.
  - destruct i as [|i]; [simpl in Hi; congruence|].
    destruct (IH i f Hi Hf) as (pre & g & post & -> & Hpre & Hg & Hle).
    exists (g0 :: pre), g, post. split; [done|]. split; [by constructor|].
    split; [done|]. simpl. lia.
  - exists [], g0, rest. repeat split; try done. simpl. lia.
Qed.

(** The calls made while loading: none belongs to decoding, and an
    instance is touched only if it is one of those loaded. *)
Lemma load_trace_events model_files : forall n e,
  e ∈ load_trace n model_files ->
  decoding e = false /\
  forall k, e = Setup k \/ e = LoadStateDict k \/ e = Cuda k \/
            (exists mode, e = Train k mode) ->
    (n <= k < n + length model_files)%nat.
Proof.
  induction model_files as [|f rest IH]; intros n e He;
    [by apply elem_of_nil in He|].
  simpl in He. unfold Behaviour.loading in He.
  rewrite !elem_of_cons in He.
  destruct He as [->|[->|[->|[->|[->|[->|He]]]]]];
    try (split; [done|]; intros k [?|[?|[?|[? ?]]]]; simplify_eq; simpl; lia).
  destruct (IH _ _ He) as [Hdec Hk]. split; [done|].
  intros k Hek. specialize (Hk k Hek). simpl. lia.
Qed.

(** C3: if some model of the list builds an instance without beam-search
    support, the constructor ends in [sys.exit(1)], a status that is not
    zero, and it does so at once: the run is exactly the loading of the
    models before the first such model, the reading and building of that
    model, the error message, and the exit. So nothing at all is done
    after the failed check; no weights are loaded into an instance
    without beam search, which is not set up or moved to the GPU either;
    and no decoding call has been made. *)
Theorem init_exits_without_beam_search kw w i model_file :
  models kw !! i = Some model_file ->
  supports_beam_search (instance_of model_file) = false ->
  exists pre g post,
    models kw = pre ++ g :: post /\
    Forall supported pre /\
    supports_beam_search (instance_of g) = false /\
    (length pre <= i)%nat /\
    __init__ kw w =
      (Raise (SystemExit 1),
       after w (load_trace 0 pre ++
                Behaviour.refusal (length pre) g (type_of g))) /\
    1 <> 0 /\
    forall e,
      e ∈ load_trace 0 pre ++ Behaviour.refusal (length pre) g (type_of g) ->
      decoding e = false /\
      e <> Setup i /\ e <> LoadStateDict i /\ e <> Cuda i /\
      forall mode, e <> Train i mode.
Proof.
  intros Hi Hf.
  destruct (first_refusal (models kw) i model_file Hi Hf)
    as (pre & g & post & Hm & Hpre & Hg & Hle).
  exists pre, g, post. do 4 (split; [done|]). split; [|split; [done|]].
  - unfold Translator.__init__, bind. rewrite Hm.
    by rewrite (load_instances_first_refusal pre g post [] w Hpre Hg).
  - intros e He. apply elem_of_app in He as [He|He].
    + destruct (load_trace_events pre 0 e He) as [Hdec Hk].
      split; [done|].
      assert (Hnot : forall k, (length pre <= k)%nat ->
                e = Setup k \/ e = LoadStateDict k \/ e = Cuda k \/
                (exists mode, e = Train k mode) -> False).
      { intros k Hk' Hek. specialize (Hk k Hek). lia. }
      split; [intros ->; apply (Hnot i); eauto|].
      split; [intros ->; apply (Hnot i); eauto|].
      split; [intros ->; apply (Hnot i); eauto|].
      intros mode ->. apply (Hnot i); eauto 6.
    + unfold Behaviour.refusal in He. rewrite !elem_of_cons, elem_of_nil in He.
      destruct He as [->|[->|[->|[]]]]; by repeat split.
Qed.

(** X2: The constructor exits at the first model without beam search: the
    models before it have been read, set up, loaded and moved to the GPU;
    the models after it have not been read at all. *)
Theorem init_stops_at_first_refusal kw w pre f post :
  models kw = pre ++ f :: post ->
  Forall supported pre ->
  supports_beam_search (instance_of f) = false ->
  __init__ kw w =
    (Raise (SystemExit 1),
     after w (load_trace 0 pre ++
              Behaviour.refusal (length pre) f (type_of f))).
Proof.
  intros Hm Hpre Hf. unfold Translator.__init__, bind. rewrite Hm.
  by rewrite (load_instances_first_refusal pre f post [] w Hpre Hf).
Qed.

(** *** The splits to translate *)

(** X5: Named splits: the constructor cuts the argument at its commas, and the
    [source] argument is not looked at, so that the instances stay as
    loaded. Joining the splits with commas gives the argument back. *)
Theorem init_named_splits kw w s :
  Forall supported (models kw) ->
  sanity_check (map instance_of (models kw)) = Ok tt ->
  splits kw = Some s ->
  s <> "" ->
  exists self l,
    __init__ kw w = (Ok self, after w (load_trace 0 (models kw))) /\
    self_splits self = SplitList l /\
    join "," l = s /\
    Forall (fun e => contains "," e = false) l /\
    instances self = map instance_of (models kw).
Proof.
  intros Hall Hsane Hs Hne. destruct s as [|c s']; [done|].
  unfold Translator.__init__, bind, lift, index.
  rewrite (load_instances_all _ [] w Hall). simpl. rewrite Hsane.
  destruct (map instance_of (models kw)) as [|first rest] eqn:Hm;
    [by vm_compute in Hsane|].
  cbn beta iota. rewrite Hs. simpl truthy. cbn iota.
  eexists _, _. split; [reflexivity|]. split; [reflexivity|].
  split; [apply PyFacts.join_split|]. split; [apply PyFacts.split_pieces|done].
Qed.

(** An entry without a colon, anywhere in the list, makes the parse fail. *)
Lemma parse_source_malformed entries : forall d,
  Exists (fun e => contains ":" e = false) entries ->
  parse_source entries d =
    Raise (ValueError "not enough values to unpack (expected 2, got 1)").
Proof.
  induction entries as [|e entries IH]; intros d Hex.
  - by apply Exists_nil in Hex.
  - destruct (contains ":" e) eqn:He.
    + apply Exists_cons in Hex as [Hhd|Htl]; [congruence|].
      destruct (PyFacts.cut_contains _ _ He) as (k & r & Hcut).
      simpl. unfold split1. rewrite Hcut. by apply IH.
    + by apply TranslatorFacts.parse_source_no_colon.
Qed.

(** X6: A source mapping with an entry that holds no colon: the constructor
    raises [ValueError] at the unpacking, after all models have been loaded
    and checked. *)
Theorem init_malformed_source kw w src :
  Forall supported (models kw) ->
  sanity_check (map instance_of (models kw)) = Ok tt ->
  truthy (splits kw) = false ->
  source kw = Some src ->
  src <> "" ->
  Exists (fun e => contains ":" e = false) (split "," src) ->
  __init__ kw w =
    (Raise (ValueError "not enough values to unpack (expected 2, got 1)"),
     after w (load_trace 0 (models kw))).
Proof.
  intros Hall Hsane Hsplits Hsource Hne Hex.
  destruct src as [|c src']; [done|]. set (src := String c src') in *.
  unfold Translator.__init__, bind, lift, index.
  rewrite (load_instances_all _ [] w Hall). simpl. rewrite Hsane.
  destruct (map instance_of (models kw)) as [|first rest] eqn:Hm;
    [by vm_compute in Hsane|].
  cbn beta iota. rewrite Hsplits, Hsource.
  change (truthy (Some src)) with true. cbn iota.
  change (default "" (Some src)) with src.
  by rewrite (parse_source_malformed _ ∅ Hex).
Qed.

(** Parsing with an accumulator: a key is bound to the path of its last
    entry, and keeps its earlier binding when no entry names it. *)
Lemma parse_source_lookup entries : forall d0,
  Forall (fun e => contains ":" e = true) entries ->
  exists d,
    parse_source entries d0 = Ok d /\
    forall k, d !! k =
      match Behaviour.last_path k (omap (cut ":") entries) with
      | Some p => Some (Path p)
      | None => d0 !! k
      end.
Proof.
  induction entries as [|e entries IH]; intros d0 Hall.
  - exists d0. by split.
  - apply Forall_cons in Hall as [He Hall].
    destruct (PyFacts.cut_contains _ _ He) as (k' & r & Hcut).
    destruct (IH (<[k' := Path r]> d0) Hall) as (d & Hparse & Hd).
    exists d. split.
    + simpl. unfold split1. by rewrite Hcut.
    + intros k. rewrite Hd. simpl. rewrite Hcut. simpl.
      change (list_omap string (string * string)%type (cut ":") entries)
        with (omap (cut ":") entries).
      destruct (Behaviour.last_path k (omap (cut ":") entries)); [done|].
      destruct (decide (k' = k)) as [->|Hne].
      * by rewrite lookup_insert_eq.
      * by rewrite lookup_insert_ne.
Qed.

(** X7: A key that occurs in several entries of the mapping is bound to the
    path of the last of them; a key that occurs in none is not bound. *)
Theorem parse_source_last_wins entries :
  Forall (fun e => contains ":" e = true) entries ->
  exists d,
    parse_source entries ∅ = Ok d /\
    forall k, d !! k =
      Path <$> Behaviour.last_path k (omap (cut ":") entries).
Proof.
  intros Hall. destruct (parse_source_lookup entries ∅ Hall) as (d & Hp & Hd).
  exists d. split; [done|]. intros k. rewrite Hd.
  by destruct (Behaviour.last_path k (omap (cut ":") entries)).
Qed.

(** X8: Neither splits nor a source mapping: the constructor returns with
    [self.splits] as it was given, and calling the translator then raises
    [TypeError] (for [None]) or does nothing at all (for the empty string);
    either way nothing is translated or written. *)
Theorem init_without_splits kw w :
  Forall supported (models kw) ->
  sanity_check (map instance_of (models kw)) = Ok tt ->
  truthy (splits kw) = false ->
  truthy (source kw) = false ->
  exists self,
    __init__ kw w = (Ok self, after w (load_trace 0 (models kw))) /\
    self_splits self = AsGiven (splits kw) /\
    forall w1,
      __call__ get_iterator beam_search self w1 =
        (match splits kw with
         | None => Raise (TypeError "'NoneType' object is not iterable")
         | Some _ => Ok tt
         end, w1).
Proof.
  intros Hall Hsane Hsplits Hsource.
  unfold Translator.__init__, bind, lift, index.
  rewrite (load_instances_all _ [] w Hall). simpl. rewrite Hsane.
  destruct (map instance_of (models kw)) as [|first rest] eqn:Hm;
    [by vm_compute in Hsane|].
  cbn beta iota. rewrite Hsplits, Hsource.
  eexists. split; [reflexivity|]. split; [reflexivity|].
  intros w1. unfold Translator.__call__. simpl.
  destruct (splits kw) as [[|c s]|]; [done|done|done].
Qed.

(** X9: With post-processing enabled and a first member that declares filters,
    [translate] returns the hypotheses of the beam search passed through
    the filter chain built from that declaration. *)
Theorem filter_chain_when_enabled kw w self w' first :
  __init__ kw w = (Ok self, w') ->
  disable_filters kw = false ->
  instances self !! 0%nat = Some first ->
  train_eval_filters (opts first) <> "" ->
  filter self = FilterChain (train_eval_filters (opts first)) /\
  forall split w1,
    fst (translate self split w1) =
      Ok (FilterChain (train_eval_filters (opts first))
            (beam_search (instances self)
               (get_iterator first split (batch_size kw) true true)
               (beam_size kw) (max_len kw) (lp_alpha kw))).
Proof.
  intros Hinit Hon Hfirst Hne.
  destruct (TranslatorFacts.init_returns _ _ _ _ _ _ _ _ _ _ Hinit)
    as (_ & Hargs & _ & f0 & f1 & _ & Hf1 & Hef & Hfilter).
  assert (f1 = first) by congruence. subst f1.
  assert (Hsel : filter self = FilterChain (train_eval_filters (opts first))).
  { rewrite Hfilter, <- Hef, Hon. unfold select_filter.
    destruct (train_eval_filters (opts first)); [done|reflexivity]. }
  split; [done|]. intros split w1.
  unfold Translator.translate, bind, index, emit, ret.
  rewrite Hfirst. simpl. by rewrite Hsel, Hargs.
Qed.

End Construction.

(** Two models with beam search and a source mapping: twelve calls, two
    instances; the first has the mapping next to the data it came with,
    the second is as built. *)
Lemma init_loads_in_order_witness :
  exists self first,
    Translator.__init__ Examples.load_pt_file MoreExamples.Options_with_data
      Examples.model_class Examples.FilterChain
      (Examples.kw ["NMT-de-bpe"; "MNMT-de-bpe"] None (Some "en:/data/test.en") false)
      Examples.w0 =
      (Ok self,
       after Examples.w0
         (Behaviour.loading 0 "NMT-de-bpe" "NMT" ++
          Behaviour.loading 1 "MNMT-de-bpe" "MNMT")) /\
    n_models self = 2%nat /\
    instances self !! 0%nat = Some first /\
    data (opts first) !! "new_set" = Some {[ "en" := Path "/data/test.en" ]} /\
    data (opts first) !! "train_set" = Some {[ "en" := Path "/data/train.en" ]} /\
    instances self !! 1%nat =
      Some (instance_of Examples.load_pt_file MoreExamples.Options_with_data
              Examples.model_class "MNMT-de-bpe").
Proof.
  destruct (init_loads_in_order _ _ Examples.load_pt_file
              MoreExamples.Options_with_data Examples.model_class
              Examples.FilterChain
              (Examples.kw ["NMT-de-bpe"; "MNMT-de-bpe"] None
                 (Some "en:/data/test.en") false)
              Examples.w0) as [Hsnd Hself]; [repeat constructor|].
  destruct (Translator.__init__ _ _ _ _ _ _) as [[self|e] w1] eqn:Hinit;
    simpl in Hsnd, Hself; [|by vm_compute in Hinit].
  destruct (Hself self eq_refl) as (Hn & _ & Hat).
  destruct (Hat 0%nat "NMT-de-bpe" eq_refl) as (_ & _ & Hfirst).
  destruct (Hfirst eq_refl eq_refl eq_refl) as (input_dict & Hparse & Hx).
  destruct (Hat 1%nat "MNMT-de-bpe" eq_refl) as (_ & Hsecond & _).
  injection Hparse as <-.
  eexists self, _. split; [by rewrite Hsnd|]. split; [exact Hn|].
  split; [exact Hx|]. cbn [opts data]. split; [|split].
  - by rewrite lookup_insert_eq, insert_empty.
  - by rewrite lookup_insert_ne.
  - apply Hsecond. left. discriminate.
Defined.

(** Three checkpoints, the second a classifier: the constructor exits
    right after the check on the second. *)
Lemma init_exits_without_beam_search_witness :
  exists pre g post,
    ["NMT-de-bpe"; "Classifier-"; "NMT-de-bpe"] = pre ++ g :: post /\
    Forall (fun f => supports_beam_search (MoreExamples.instance_of_file f) = true)
      pre /\
    supports_beam_search (MoreExamples.instance_of_file g) = false /\
    (length pre <= 1)%nat /\
    Translator.__init__ Examples.load_pt_file Examples.Options_from_dict
      Examples.model_class Examples.FilterChain
      (Examples.kw ["NMT-de-bpe"; "Classifier-"; "NMT-de-bpe"] (Some "test") None false)
      Examples.w0 =
      (Raise (SystemExit 1),
       after Examples.w0
         (Behaviour.load_trace
            (fun f => train_model_type
                        (Examples.Options_from_dict (snd (Examples.load_pt_file f))))
            0 pre ++
          Behaviour.refusal (length pre) g
            (train_model_type
               (Examples.Options_from_dict (snd (Examples.load_pt_file g)))))).
Proof.
  destruct (init_exits_without_beam_search _ _ Examples.load_pt_file
              Examples.Options_from_dict Examples.model_class Examples.FilterChain
              (Examples.kw ["NMT-de-bpe"; "Classifier-"; "NMT-de-bpe"]
                 (Some "test") None false)
              Examples.w0 1%nat "Classifier-" eq_refl eq_refl)
    as (pre & g & post & Hm & Hpre & Hg & Hle & Hrun & _).
  exists pre, g, post. by repeat split.
Defined.

(** A classifier in the middle: the third checkpoint is never read. *)
Lemma init_stops_at_first_refusal_witness :
  Translator.__init__ Examples.load_pt_file Examples.Options_from_dict
    Examples.model_class Examples.FilterChain
    (Examples.kw ["NMT-de-bpe"; "Classifier-"; "NMT-de-bpe"] (Some "test") None false)
    Examples.w0 =
  (Raise (SystemExit 1),
   after Examples.w0
     (Behaviour.loading 0 "NMT-de-bpe" "NMT" ++
      Behaviour.refusal 1 "Classifier-" "Classifier")).
Proof.
  apply (init_stops_at_first_refusal _ _ Examples.load_pt_file
           Examples.Options_from_dict Examples.model_class Examples.FilterChain
           (Examples.kw ["NMT-de-bpe"; "Classifier-"; "NMT-de-bpe"]
              (Some "test") None false)
           Examples.w0 ["NMT-de-bpe"] "Classifier-" ["NMT-de-bpe"]).
  - reflexivity.
  - repeat constructor.
  - reflexivity.
Defined.

(** Two named splits, and a source mapping that is not looked at. *)
Lemma init_named_splits_witness :
  exists self l,
    Translator.__init__ Examples.load_pt_file Examples.Options_from_dict
      Examples.model_class Examples.FilterChain
      (Examples.kw ["NMT-de-bpe"] (Some "test,val") (Some "no colon here") false)
      Examples.w0 =
      (Ok self, after Examples.w0 (Behaviour.loading 0 "NMT-de-bpe" "NMT")) /\
    self_splits self = SplitList l /\
    join "," l = "test,val" /\
    Forall (fun e => contains "," e = false) l /\
    instances self = [MoreExamples.instance_of_file "NMT-de-bpe"].
Proof.
  apply (init_named_splits _ _ Examples.load_pt_file
           Examples.Options_from_dict Examples.model_class Examples.FilterChain
           (Examples.kw ["NMT-de-bpe"] (Some "test,val") (Some "no colon here") false)
           Examples.w0 "test,val").
  - repeat constructor.
  - vm_compute. reflexivity.
  - reflexivity.
  - discriminate.
Defined.

(** The second entry has no colon. *)
Lemma init_malformed_source_witness :
  Translator.__init__ Examples.load_pt_file Examples.Options_from_dict
    Examples.model_class Examples.FilterChain
    (Examples.kw ["NMT-de-bpe"] None (Some "en:/data/test.en,image") false)
    Examples.w0 =
  (Raise (ValueError "not enough values to unpack (expected 2, got 1)"),
   after Examples.w0 (Behaviour.loading 0 "NMT-de-bpe" "NMT")).
Proof.
  apply (init_malformed_source _ _ Examples.load_pt_file
           Examples.Options_from_dict Examples.model_class Examples.FilterChain
           (Examples.kw ["NMT-de-bpe"] None (Some "en:/data/test.en,image") false)
           Examples.w0 "en:/data/test.en,image").
  - repeat constructor.
  - vm_compute. reflexivity.
  - reflexivity.
  - reflexivity.
  - discriminate.
  - vm_compute. apply Exists_cons_tl, Exists_cons_hd. reflexivity.
Defined.

(** The key [en] given twice: the second path is the one bound. *)
Lemma parse_source_last_wins_witness :
  exists d,
    parse_source ["en:/a"; "image:/img"; "en:/b"] ∅ = Ok d /\
    d !! "en" = Some (Path "/b") /\
    d !! "de" = None.
Proof.
  destruct (parse_source_last_wins ["en:/a"; "image:/img"; "en:/b"])
    as (d & Hparse & Hd).
  - repeat constructor.
  - exists d. split; [exact Hparse|]. split.
    + rewrite (Hd "en"). reflexivity.
    + rewrite (Hd "de"). reflexivity.
Defined.

(** No splits and no source: the call raises [TypeError]. *)
Lemma init_without_splits_witness :
  exists self,
    Translator.__init__ Examples.load_pt_file Examples.Options_from_dict
      Examples.model_class Examples.FilterChain
      (Examples.kw ["NMT-de-bpe"] None None false) Examples.w0 =
      (Ok self, after Examples.w0 (Behaviour.loading 0 "NMT-de-bpe" "NMT")) /\
    self_splits self = AsGiven None /\
    forall w1,
      __call__ Examples.get_iterator Examples.beam_search self w1 =
        (Raise (TypeError "'NoneType' object is not iterable"), w1).
Proof.
  apply (init_without_splits _ _ _ Examples.load_pt_file
           Examples.Options_from_dict Examples.model_class Examples.FilterChain
           Examples.get_iterator Examples.beam_search
           (Examples.kw ["NMT-de-bpe"] None None false) Examples.w0).
  - repeat constructor.
  - vm_compute. reflexivity.
  - reflexivity.
  - reflexivity.
Defined.

(** A model that declares [lower], with post-processing left enabled. *)
Lemma filter_chain_when_enabled_witness :
  exists self w',
    Translator.__init__ Examples.load_pt_file Examples.Options_from_dict
      Examples.model_class Examples.FilterChain
      (Examples.kw ["NMT-lower"] (Some "test") None false) Examples.w0 =
      (Ok self, w') /\
    fst (Translator.translate Examples.get_iterator Examples.beam_search
           self "test" w') = Ok ["test 1|lower"; "test 2|lower"].
Proof.
  eexists _, _. split; [vm_compute; reflexivity|].
  destruct (filter_chain_when_enabled _ _ _ Examples.load_pt_file
              Examples.Options_from_dict Examples.model_class
              Examples.FilterChain Examples.get_iterator Examples.beam_search
              (Examples.kw ["NMT-lower"] (Some "test") None false)
              Examples.w0 _ _ (MoreExamples.instance_of_file "NMT-lower")
              ltac:(vm_compute; reflexivity) eq_refl eq_refl
              ltac:(discriminate))
    as (_ & Htr).
  rewrite Htr. reflexivity.
Defined.

(** *** The ensemble check as a whole *)

(** X3: [sanity_check] accepts exactly the ensembles that have a member and
    whose members all carry the same [eval_filters] value and the same
    target-vocabulary size; when the filters differ it is the filter
    assertion that fails, whatever the vocabularies; and it never raises
    anything but one of its two assertion errors. *)
Theorem sanity_check_accepts (instances : list instance) :
  (sanity_check instances = Ok tt <->
   instances <> [] /\
   forall i j, i ∈ instances -> j ∈ instances ->
     train_eval_filters (opts i) = train_eval_filters (opts j) /\
     n_trg_vocab i = n_trg_vocab j) /\
  ((exists i j, i ∈ instances /\ j ∈ instances /\
      train_eval_filters (opts i) <> train_eval_filters (opts j)) ->
   sanity_check instances =
     Raise (AssertionError "eval_filters differ between instances.")) /\
  (sanity_check instances = Ok tt \/
   sanity_check instances =
     Raise (AssertionError "eval_filters differ between instances.") \/
   sanity_check instances =
     Raise (AssertionError "target vocabularies differ.")).
Proof.
  unfold sanity_check. split; [|split].
  - destruct (SanityCheck.check_eval_filters_raises instances) as [Hf|Hf];
      rewrite Hf.
    + rewrite SanityCheck.check_n_trg_vocab_spec.
      pose proof (proj1 (SanityCheck.check_eval_filters_spec instances) Hf) as Hef.
      split.
      * intros [Hne Hv]. split; [done|]. intros i j Hi Hj. split; auto.
      * intros [Hne Hall]. split; [done|]. intros i j Hi Hj.
        by apply Hall.
    + split; [done|]. intros [_ Hall].
      assert (Hok : check_eval_filters instances = Ok tt).
      { apply SanityCheck.check_eval_filters_spec. intros i j Hi Hj.
        by apply Hall. }
      congruence.
  - intros (i & j & Hi & Hj & Hne).
    destruct (SanityCheck.check_eval_filters_raises instances) as [Hf|Hf];
      rewrite Hf; [|done].
    destruct Hne.
    by apply (proj1 (SanityCheck.check_eval_filters_spec instances) Hf).
  - destruct (SanityCheck.check_eval_filters_raises instances) as [-> | ->];
      [|by auto].
    destruct (SanityCheck.check_n_trg_vocab_raises instances) as [-> | ->]; auto.
Qed.

(** X4: The outcome of [sanity_check] depends only on which instances are in
    the list, not on their order nor on how often each occurs. *)
Theorem sanity_check_same_members (l1 l2 : list instance) :
  (forall i, i ∈ l1 <-> i ∈ l2) ->
  sanity_check l1 = sanity_check l2.
Proof.
  intros Hsame.
  assert (Hf : eval_filters_of l1 = eval_filters_of l2).
  { unfold eval_filters_of. apply set_eq. intros x.
    rewrite !elem_of_list_to_set, !list_elem_of_fmap.
    split; intros (i & -> & Hi); exists i; (split; [done|]); by apply Hsame. }
  assert (Hv : n_trg_vocab_of l1 = n_trg_vocab_of l2).
  { unfold n_trg_vocab_of. apply set_eq. intros x.
    rewrite !elem_of_list_to_set, !list_elem_of_fmap.
    split; intros (i & -> & Hi); exists i; (split; [done|]); by apply Hsame. }
  unfold sanity_check, check_eval_filters, check_n_trg_vocab.
  by rewrite Hf, Hv.
Qed.

(** The same checkpoint loaded three times, in two orders. *)
Lemma sanity_check_same_members_witness :
  sanity_check
    [Examples.member "de-bpe" 100 true; Examples.member "" 100 true;
     Examples.member "de-bpe" 100 true] =
  sanity_check
    [Examples.member "" 100 true; Examples.member "de-bpe" 100 true].
Proof.
  apply sanity_check_same_members. intros i.
  rewrite !elem_of_cons. tauto.
Defined.

(** *** Output files *)

Lemma length_append (a b : string) :
  String.length (a +:+ b) = (String.length a + String.length b)%nat.
Proof.
  induction a as [|x a IH]; [done|].
  rewrite PyFacts.append_cons. simpl. by rewrite IH.
Qed.

(** A common ending can be cancelled. *)
Lemma append_inj_r (a b c : string) : a +:+ c = b +:+ c -> a = b.
Proof.
  revert b. induction a as [|x a IH]; intros [|y b] Heq.
  - done.
  - rewrite PyFacts.append_nil_l, PyFacts.append_cons in Heq.
    apply (f_equal String.length) in Heq. simpl in Heq.
    rewrite length_append in Heq. lia.
  - rewrite PyFacts.append_nil_l, PyFacts.append_cons in Heq.
    apply (f_equal String.length) in Heq. simpl in Heq.
    rewrite length_append in Heq. lia.
  - rewrite !PyFacts.append_cons in Heq. injection Heq as -> Heq.
    f_equal. by apply IH.
Qed.

(** The name is the base path, the part for the split and a suffix that
    does not depend on the split. *)
Lemma dump_output_shape self :
  exists suffix, forall split,
    dump_output self split =
      output (args self) +:+
      (if decide (split = "new") then "" else "." +:+ split) +:+ suffix.
Proof.
  unfold dump_output. eexists. intros split.
  destruct (decide (split = "new")); [reflexivity|].
  reflexivity.
Qed.

Lemma dump_output_cancel self s1 s2 :
  dump_output self s1 = dump_output self s2 -> s1 = s2.
Proof.
  destruct (dump_output_shape self) as [suffix Hshape].
  rewrite !Hshape. intros Heq.
  apply (inj (String.app _)) in Heq. apply append_inj_r in Heq.
  destruct (decide (s1 = "new")) as [->|]; destruct (decide (s2 = "new")) as [->|];
    try done.
  rewrite !PyFacts.append_cons in Heq. by injection Heq.
Qed.

(** X12: Different splits are written to different files: the file name tells
    the split. *)
Theorem dump_output_inj self s1 s2 :
  dump_output self s1 = dump_output self s2 <-> s1 = s2.
Proof. split; [apply dump_output_cancel | by intros ->]. Qed.

(** X13: Given that the paths of two splits can be opened: dumping again
    for the same split leaves only the later hypotheses, as if the earlier
    dump had not happened; after a dump for one split and then one for the
    other, the file of the second holds the second hypotheses, and, when
    the two paths lead to different files, the file of the first still
    holds the first ones and the order of the two dumps does not matter;
    when the two paths lead to one file, the later dump is all that is
    left. *)
Theorem dump_twice self h1 h2 s1 s2 w f1 f2 :
  locate w (dump_output self s1) = Ok f1 ->
  locate w (dump_output self s2) = Ok f2 ->
  snd (dump self h2 s1 (snd (dump self h1 s1 w))) = snd (dump self h2 s1 w) /\
  files (snd (dump self h2 s2 (snd (dump self h1 s1 w)))) !! f2 =
    Some (Spec.lines h2) /\
  (f1 <> f2 ->
   files (snd (dump self h2 s2 (snd (dump self h1 s1 w)))) !! f1 =
     Some (Spec.lines h1) /\
   snd (dump self h2 s2 (snd (dump self h1 s1 w))) =
     snd (dump self h1 s1 (snd (dump self h2 s2 w)))) /\
  (f1 = f2 ->
   snd (dump self h2 s2 (snd (dump self h1 s1 w))) = snd (dump self h2 s2 w)).
Proof.
  intros Hf1 Hf2.
  rewrite (TranslatorFacts.dump_opened self h1 s1 w f1 Hf1).
  rewrite (TranslatorFacts.dump_opened self h2 s2 w f2 Hf2).
  rewrite (TranslatorFacts.dump_opened self h2 s1 w f1 Hf1). simpl.
  rewrite (TranslatorFacts.dump_opened self h2 s1 (written w f1 _) f1 Hf1).
  rewrite (TranslatorFacts.dump_opened self h2 s2 (written w f1 _) f2 Hf2).
  rewrite (TranslatorFacts.dump_opened self h1 s1 (written w f2 _) f1 Hf1).
  unfold written. simpl. split; [|split; [|split]].
  - by rewrite insert_insert_eq.
  - apply lookup_insert_eq.
  - intros Hne. split.
    + rewrite lookup_insert_ne by done. apply lookup_insert_eq.
    + f_equal. by apply insert_insert_ne.
  - intros ->. by rewrite insert_insert_eq.
Qed.

(** Two splits written one after the other in one directory. *)
Lemma dump_twice_witness :
  files (snd (dump (Examples.writer "out" 2 5 Examples.one) ["c"] "val"
           (snd (dump (Examples.writer "out" 2 5 Examples.one) ["a"; "b"] "test"
                   Examples.old_output))))
    !! "out.test.lp_1.0.ens2.beam5" =
  Some (Spec.lines ["a"; "b"]).
Proof.
  refine (proj1 (proj1 (proj2 (proj2
    (dump_twice (Examples.writer "out" 2 5 Examples.one)
       ["a"; "b"] ["c"] "test" "val" Examples.old_output
       "out.test.lp_1.0.ens2.beam5" "out.val.lp_1.0.ens2.beam5"
       eq_refl eq_refl))) _)).
  discriminate.
Defined.

(** *** Translating the splits *)

(** One write per split, in order: what a file holds in the end. *)
Section Writes.
Variables file content : string -> string.

#[local] Abbreviation written_all := (Behaviour.written_all file content).

Lemma written_all_frame l : forall fs g,
  (forall s, s ∈ l -> file s <> g) ->
  written_all fs l !! g = fs !! g.
Proof.
  induction l as [|a l IH]; intros fs g Hg; [done|].
  unfold Behaviour.written_all. simpl. fold (written_all (<[file a := content a]> fs) l).
  rewrite IH.
  - apply lookup_insert_ne, Hg. left.
  - intros s Hs. apply Hg. by right.
Qed.

Lemma written_all_keep l : forall fs s,
  fs !! file s = Some (content s) ->
  (forall s', s' ∈ l -> file s' = file s -> s' = s) ->
  written_all fs l !! file s = Some (content s).
Proof.
  induction l as [|a l IH]; intros fs s Hfs Hlast; [done|].
  unfold Behaviour.written_all. simpl. fold (written_all (<[file a := content a]> fs) l).
  apply IH.
  - destruct (decide (file a = file s)) as [Heq|Hne].
    + rewrite (Hlast a) by (done || left). apply lookup_insert_eq.
    + by rewrite lookup_insert_ne.
  - intros s' Hs'. apply Hlast. by right.
Qed.

Lemma written_all_last l1 s l2 fs :
  (forall s', s' ∈ l2 -> file s' = file s -> s' = s) ->
  written_all fs (l1 ++ s :: l2) !! file s = Some (content s).
Proof.
  intros Hlast. unfold Behaviour.written_all. rewrite foldl_app. simpl.
  apply written_all_keep; [apply lookup_insert_eq|done].
Qed.

Lemma written_all_some l : forall fs s,
  s ∈ l -> is_Some (written_all fs l !! file s).
Proof.
  assert (Hsome : forall l fs g, is_Some (fs !! g) -> is_Some (written_all fs l !! g)).
  { clear. induction l as [|a l IH]; intros fs g Hg; [done|].
    unfold Behaviour.written_all. simpl.
    fold (written_all (<[file a := content a]> fs) l). apply IH.
    destruct (decide (file a = g)) as [<-|Hne].
    - rewrite lookup_insert_eq. by eexists.
    - by rewrite lookup_insert_ne. }
  induction l as [|a l IH]; intros fs s Hs; [by apply elem_of_nil in Hs|].
  unfold Behaviour.written_all. simpl.
  fold (written_all (<[file a := content a]> fs) l).
  destruct (decide (s ∈ l)) as [Hin|Hnotin]; [by apply IH|].
  apply elem_of_cons in Hs as [->|Hs]; [|done].
  apply Hsome. rewrite lookup_insert_eq. by eexists.
Qed.

End Writes.

Section Calling.
Variable loader : Type.
Variable get_iterator : instance -> string -> Z -> bool -> bool -> loader.
Variable beam_search :
  list instance -> loader -> Z -> Z -> spec_float -> list string.

(** The hypotheses written for a split: the beam search over a loader
    without targets and without shuffling, then the filter. *)
#[local] Abbreviation hypotheses self first split :=
  (filter self
     (beam_search (instances self)
        (get_iterator first split (batch_size (args self)) true true)
        (beam_size (args self)) (max_len (args self)) (lp_alpha (args self)))).

Lemma translate_run self first split w :
  instances self !! 0%nat = Some first ->
  translate get_iterator beam_search self split w =
    (Ok (hypotheses self first split),
     after w (Behaviour.split_events self split)).
Proof.
  intros Hfirst. unfold translate, bind, index, emit, ret. rewrite Hfirst.
  simpl. by rewrite !TranslatorFacts.after_after.
Qed.

(** Translating and writing a list of splits whose paths can all be
    opened. *)
Lemma translate_all_run self first file l : forall w,
  instances self !! 0%nat = Some first ->
  (forall s, s ∈ l -> locate w (dump_output self s) = Ok (file s)) ->
  translate_all get_iterator beam_search self l w =
    (Ok tt,
     {| trace := trace w ++ flat_map (Behaviour.split_events self) l;
        files := Behaviour.written_all file
                   (fun s => Spec.lines (hypotheses self first s)) (files w) l;
        locate := locate w |}).
Proof.
  induction l as [|s l IH]; intros w Hfirst Hopen.
  - simpl. rewrite app_nil_r. by destruct w.
  - simpl. unfold bind at 1. rewrite (translate_run _ _ _ _ Hfirst).
    unfold bind at 1.
    rewrite (TranslatorFacts.dump_opened self _ s (after w _) (file s))
      by (apply Hopen; left).
    rewrite IH; [|done|by intros s' Hs'; apply Hopen; right].
    simpl. by rewrite <- app_assoc.
Qed.

(** Translating and writing up to a split whose path cannot be opened. *)
Lemma translate_all_refused self first file l1 s l2 e : forall w,
  instances self !! 0%nat = Some first ->
  (forall s', s' ∈ l1 -> locate w (dump_output self s') = Ok (file s')) ->
  locate w (dump_output self s) = Raise e ->
  translate_all get_iterator beam_search self (l1 ++ s :: l2) w =
    (Raise e,
     {| trace := trace w ++ flat_map (Behaviour.split_events self) (l1 ++ [s]);
        files := Behaviour.written_all file
                   (fun s => Spec.lines (hypotheses self first s)) (files w) l1;
        locate := locate w |}).
Proof.
  induction l1 as [|a l1 IH]; intros w Hfirst Hopen Hrefused.
  - simpl. unfold bind at 1. rewrite (translate_run _ _ _ _ Hfirst).
    unfold bind at 1.
    by rewrite (TranslatorFacts.dump_refused self _ s (after w _) e Hrefused).
  - simpl. unfold bind at 1. rewrite (translate_run _ _ _ _ Hfirst).
    unfold bind at 1.
    rewrite (TranslatorFacts.dump_opened self _ a (after w _) (file a))
      by (apply Hopen; left).
    rewrite IH; [|done|by intros s' Hs'; apply Hopen; right|done].
    simpl. by rewrite <- app_assoc.
Qed.



End Calling.



(** *** From the constructor to the output files *)

Section EndToEnd.
Variables weights raw_options loader : Type.
Variable load_pt_file : string -> weights * raw_options.
Variable Options_from_dict : raw_options -> options.
Variable model_class : string -> options -> instance.
Variable FilterChain : string -> list string -> list string.
Variable get_iterator : instance -> string -> Z -> bool -> bool -> loader.
Variable beam_search :
  list instance -> loader -> Z -> Z -> spec_float -> list string.

#[local] Abbreviation __init__ :=
  (__init__ load_pt_file Options_from_dict model_class FilterChain).

(** The splits of a translator that the constructor has returned. *)
Lemma init_splits kw w self w' :
  __init__ kw w = (Ok self, w') ->
  self_splits self =
    if truthy (splits kw) then SplitList (split "," (default "" (splits kw)))
    else if truthy (source kw) then SplitList ["new"]
    else AsGiven (splits kw).
Proof.
  unfold Translator.__init__, bind, lift, index.
  destruct (load_instances _ _ _ (models kw) [] w) as [[insts|e] w1];
    [|discriminate].
  destruct (sanity_check insts) as [[]|]; [|discriminate].
  destruct (insts !! 0%nat) as [first|]; simpl; [|discriminate].
  destruct (truthy (splits kw)); [|destruct (truthy (source kw))].
  - by intros [= <- _].
  - destruct (parse_source _ _); [|discriminate]. by intros [= <- _].
  - by intros [= <- _].
Qed.


End EndToEnd.


End TranslatorMore.

(** ** More on the data set: what it builds and when it fails *)

Module DatasetMore.
Import Py MultiLabelMulti30k.

Section Construction.
Context {file vocabulary image_folder one_hot multi_parallel : Type}.
Variable ImageFolderDataset : file -> Z -> Z -> Z -> bool -> image_folder.
Variable OneHotDataset : file -> vocabulary -> one_hot.
Variable MultiParallelDataset :
  list (DataSource * dataset image_folder one_hot) ->
  list (DataSource * dataset image_folder one_hot) -> multi_parallel.

Variable data_dict : gmap string file.
Variable vocabs : gmap string vocabulary.
Variable t : nat.
Variables (warmup : bool) (resize crop replicate : Z).

#[local] Abbreviation loop_srcs :=
  (loop_srcs (one_hot:=one_hot) ImageFolderDataset data_dict t
     warmup resize crop replicate).
#[local] Abbreviation loop_trgs :=
  (loop_trgs (image_folder:=image_folder) OneHotDataset data_dict vocabs t).
#[local] Abbreviation __init__ :=
  (__init__ ImageFolderDataset OneHotDataset MultiParallelDataset
        data_dict vocabs t warmup resize crop replicate).
#[local] Abbreviation kept := (List.filter (present data_dict)).
#[local] Abbreviation images f :=
  (Images (one_hot:=one_hot) (ImageFolderDataset f resize crop replicate warmup)).
#[local] Abbreviation labels p v :=
  (Labels (image_folder:=image_folder) (OneHotDataset p v)).

(** The constructor, as the two loops followed by the two comprehensions. *)
Lemma init_steps h :
  __init__ h =
    match loop_srcs (srcs (h t)) ∅ h with
    | (Raise e, h1) => (Raise e, h1)
    | (Ok data1, h1) =>
        match loop_trgs (trgs (h1 t)) data1 h1 with
        | (Raise e, h2) => (Raise e, h2)
        | (Ok data2, h2) =>
            match comprehension (srcs (h2 t)) data2 with
            | Raise e => (Raise e, h2)
            | Ok l1 =>
                match comprehension (trgs (h2 t)) data2 with
                | Raise e => (Raise e, h2)
                | Ok l2 =>
                    (Ok {| topology := t;
                           self_dataset := MultiParallelDataset l1 l2 |}, h2)
                end
            end
        end
    end.
Proof.
  unfold MultiLabelMulti30k.__init__, bind, read, lift, ret.
  destruct (loop_srcs (srcs (h t)) ∅ h) as [[data1|e] h1]; [|done].
  destruct (loop_trgs (trgs (h1 t)) data1 h1) as [[data2|e] h2]; [|done].
  destruct (comprehension (srcs (h2 t)) data2) as [l1|e]; [|done].
  by destruct (comprehension (trgs (h2 t)) data2) as [l2|e].
Qed.

(** What the first loop puts into [data]: image folders built from the
    entry of [data_dict], for sources of type ImageFolder only. *)
Lemma loop_srcs_data rest : forall data h data' h',
  loop_srcs rest data h = (Ok data', h') ->
  forall k,
    data' !! k = data !! k \/
    exists ds f, (k, ds) ∈ rest /\ data_dict !! k = Some f /\
      _type ds = "ImageFolder" /\ data' !! k = Some (images f).
Proof.
  induction rest as [|[src ds] rest IH]; intros data h data' h' Hrun k.
  - simpl in Hrun. injection Hrun as <- <-. by left.
  - simpl in Hrun. destruct (data_dict !! src) as [f|] eqn:Hsrc.
    + destruct (String.eqb (_type ds) "ImageFolder") eqn:Hty.
      * apply String.eqb_eq in Hty.
        destruct (IH _ _ _ _ Hrun k) as [Hsame|(ds' & f' & Hin & Hk & Ht & Hd)].
        -- destruct (decide (src = k)) as [->|Hne].
           ++ right. exists ds, f. rewrite Hsame, lookup_insert_eq.
              repeat split; try done. left.
           ++ left. by rewrite Hsame, lookup_insert_ne.
        -- right. exists ds', f'. repeat split; try done. by right.
      * destruct (IH _ _ _ _ Hrun k) as [Hsame|(ds' & f' & Hin & Hk & Ht & Hd)].
        -- by left.
        -- right. exists ds', f'. repeat split; try done. by right.
    + unfold bind at 1 in Hrun.
      destruct (del_src t src h) as [[[]|e] h1]; [|discriminate].
      destruct (IH _ _ _ _ Hrun k) as [Hsame|(ds' & f' & Hin & Hk & Ht & Hd)].
      * by left.
      * right. exists ds', f'. repeat split; try done. by right.
Qed.

(** What the second loop puts into [data]: for each target with data, the
    labels built from its file and its vocabulary; other keys stay. *)
Lemma loop_trgs_data rest : forall data h data' h',
  loop_trgs rest data h = (Ok data', h') ->
  forall k,
    (k ∉ rest.*1 -> data' !! k = data !! k) /\
    (forall p, k ∈ rest.*1 -> data_dict !! k = Some p ->
       exists v, vocabs !! k = Some v /\ data' !! k = Some (labels p v)) /\
    (forall p v, data_dict !! k = Some p -> vocabs !! k = Some v ->
       data !! k = Some (labels p v) -> data' !! k = Some (labels p v)).
Proof.
  induction rest as [|[trg ds] rest IH]; intros data h data' h' Hrun k.
  - simpl in Hrun. injection Hrun as <- <-.
    split; [done|]. split; [by intros p ?%elem_of_nil|done].
  - simpl in Hrun. destruct (data_dict !! trg) as [p0|] eqn:Htrg.
    + destruct (vocabs !! trg) as [v0|] eqn:Hv0; [|discriminate].
      destruct (IH _ _ _ _ Hrun k) as (Hout & Hin & Hkeep).
      split; [|split].
      * intros Hnotin. simpl in Hnotin. apply not_elem_of_cons in Hnotin as [Hne Hnotin].
        rewrite (Hout Hnotin). by rewrite lookup_insert_ne.
      * intros p Hk Hp. simpl in Hk. apply elem_of_cons in Hk as [->|Hk].
        -- exists v0. split; [done|].
           assert (p = p0) by congruence. subst p.
           apply Hkeep; [done|done|]. by rewrite lookup_insert_eq.
        -- by apply Hin.
      * intros p v Hp Hv Hd. apply Hkeep; [done|done|].
        destruct (decide (trg = k)) as [->|Hne].
        -- rewrite lookup_insert_eq. congruence.
        -- by rewrite lookup_insert_ne.
    + unfold bind at 1 in Hrun.
      destruct (del_trg t trg h) as [[[]|e] h1]; [|discriminate].
      destruct (IH _ _ _ _ Hrun k) as (Hout & Hin & Hkeep).
      split; [|split].
      * intros Hnotin. simpl in Hnotin. apply not_elem_of_cons in Hnotin as [Hne Hnotin].
        by apply Hout.
      * intros p Hk Hp. simpl in Hk. apply elem_of_cons in Hk as [->|Hk].
        -- congruence.
        -- by apply Hin.
      * done.
Qed.

(** A comprehension that returns has found every key, and pairs each
    value of the dictionary with the entry of [data] under its key. *)
Lemma comprehension_Ok items (data : gmap string (dataset image_folder one_hot)) l :
  comprehension items data = Ok l ->
  Forall2 (fun kv vd => fst vd = snd kv /\ data !! fst kv = Some (snd vd)) items l.
Proof.
  revert l. induction items as [|[k v] items IH]; intros l; simpl.
  - intros [= <-]. constructor.
  - destruct (data !! k) as [d|] eqn:Hk; [|discriminate].
    destruct (comprehension items data) as [l'|]; [|discriminate].
    intros [= <-]. constructor; [done|]. by apply IH.
Qed.

(** The run of the constructor on a topology whose dictionaries have no
    key twice, taken apart. *)
Lemma init_run h :
  NoDup ((srcs (h t)).*1) ->
  NoDup ((trgs (h t)).*1) ->
  exists data1 h1 r2 h2,
    loop_srcs (srcs (h t)) ∅ h = (Ok data1, h1) /\
    loop_trgs (trgs (h t)) data1 h1 = (r2, h2) /\
    srcs (h2 t) = kept (srcs (h t)) /\
    (forall a, a <> t -> h2 a = h a) /\
    (forall k ds, (k, ds) ∈ srcs (h t) -> is_Some (data_dict !! k) ->
       _type ds = "ImageFolder" -> is_Some (data1 !! k)) /\
    match r2 with
    | Ok data2 =>
        trgs (h2 t) = kept (trgs (h t)) /\
        __init__ h =
          match comprehension (kept (srcs (h t))) data2 with
          | Raise e => (Raise e, h2)
          | Ok l1 =>
              match comprehension (kept (trgs (h t))) data2 with
              | Raise e => (Raise e, h2)
              | Ok l2 =>
                  (Ok {| topology := t;
                         self_dataset := MultiParallelDataset l1 l2 |}, h2)
              end
          end
    | Raise e =>
        __init__ h = (Raise e, h2) /\
        exists k, e = KeyError k /\ k ∈ (trgs (h t)).*1 /\
          is_Some (data_dict !! k) /\ vocabs !! k = None
    end.
Proof.
  intros Hnds Hndt.
  destruct (DatasetFacts.loop_srcs_run (one_hot:=one_hot) ImageFolderDataset
              data_dict t warmup resize crop replicate
              (srcs (h t)) [] ∅ h eq_refl Hnds)
    as (data1 & h1 & Hrun1 & Hs1 & Ht1 & Hfr1 & _ & Hdata1).
  simpl in Hs1.
  assert (Hcur : trgs (h1 t) = kept [] ++ trgs (h t)) by (by rewrite Ht1).
  destruct (DatasetFacts.loop_trgs_run (image_folder:=image_folder)
              OneHotDataset data_dict vocabs t
              (trgs (h t)) [] data1 h1 Hcur Hndt)
    as (r2 & h2 & Hrun2 & Hs2 & Hfr2 & Hr2).
  exists data1, h1, r2, h2.
  split; [done|]. split; [done|]. split; [by rewrite Hs2|].
  split; [by intros a Ha; rewrite Hfr2, Hfr1|]. split; [done|].
  rewrite init_steps, Hrun1, Ht1, Hrun2.
  destruct r2 as [data2|e].
  - destruct Hr2 as (Ht2 & _ & _). simpl in Ht2.
    split; [done|]. by rewrite Hs2, Hs1, Ht2.
  - split; [done|]. destruct Hr2 as (k & -> & Hin & Hk & Hnone). by exists k.
Qed.

(** A dictionary binds a key once. *)
Lemma odict_functional {V} (d : odict V) k v1 v2 :
  NoDup (d.*1) -> (k, v1) ∈ d -> (k, v2) ∈ d -> v1 = v2.
Proof.
  induction d as [|[k' v'] d IH]; intros Hnd H1 H2; [by apply elem_of_nil in H1|].
  simpl in Hnd. apply NoDup_cons in Hnd as [Hnotin Hnd].
  apply elem_of_cons in H1 as [H1|H1]; apply elem_of_cons in H2 as [H2|H2].
  - congruence.
  - injection H1 as -> ->. destruct Hnotin.
    apply list_elem_of_fmap. by exists (k', v2).
  - injection H2 as -> ->. destruct Hnotin.
    apply list_elem_of_fmap. by exists (k', v1).
  - by apply IH.
Qed.

Lemma kept_elem {V} (d : odict V) k v :
  (k, v) ∈ List.filter (present data_dict) d <->
  (k, v) ∈ d /\ is_Some (data_dict !! k).
Proof.
  rewrite !list_elem_of_In, List.filter_In. unfold present. simpl.
  by rewrite bool_decide_eq_true.
Qed.

Lemma kept_NoDup {V} (d : odict V) :
  NoDup (d.*1) -> NoDup ((List.filter (present data_dict) d).*1).
Proof.
  induction d as [|[k v] d IH]; intros Hnd; simpl; [constructor|].
  simpl in Hnd. apply NoDup_cons in Hnd as [Hnotin Hnd].
  destruct (present data_dict (k, v)); [|by apply IH].
  simpl. apply NoDup_cons. split; [|by apply IH].
  intros Hin. apply Hnotin.
  apply list_elem_of_fmap in Hin as ([k' v'] & -> & Hin).
  apply kept_elem in Hin as [Hin _].
  apply list_elem_of_fmap. by exists (k', v').
Qed.

Lemma kept_kept {V} (d : odict V) :
  List.filter (present data_dict) (List.filter (present data_dict) d) =
  List.filter (present data_dict) d.
Proof.
  apply DatasetFacts.filter_keeps_all. intros kv Hin.
  by apply list_elem_of_In, List.filter_In in Hin as [_ ?].
Qed.

Lemma Forall2_impl_elem {A B} (P Q : A -> B -> Prop) (l : list A) (k : list B) :
  Forall2 P l k ->
  (forall x y, x ∈ l -> P x y -> Q x y) ->
  Forall2 Q l k.
Proof.
  induction 1 as [|x y l k HP _ IH]; intros Himp; constructor.
  - apply Himp; [left|done].
  - apply IH. intros x' y' Hin. apply Himp. by right.
Qed.

(** When every source with data is an image folder and every target with
    data has a vocabulary, the constructor returns. *)
Lemma dataset_init_returns h :
  NoDup ((srcs (h t)).*1) ->
  NoDup ((trgs (h t)).*1) ->
  (forall k ds, (k, ds) ∈ srcs (h t) -> is_Some (data_dict !! k) ->
     _type ds = "ImageFolder") ->
  (forall k ds, (k, ds) ∈ trgs (h t) -> is_Some (data_dict !! k) ->
     is_Some (vocabs !! k)) ->
  exists l1 l2 h',
    __init__ h =
      (Ok {| topology := t; self_dataset := MultiParallelDataset l1 l2 |}, h') /\
    srcs (h' t) = kept (srcs (h t)) /\
    trgs (h' t) = kept (trgs (h t)) /\
    (forall a, a <> t -> h' a = h a).
Proof.
  intros Hnds Hndt Himg Hvoc.
  destruct (init_run h Hnds Hndt)
    as (data1 & h1 & r2 & h2 & Hrun1 & Hrun2 & Hs2 & Hfr & Hdata1 & Hr2).
  destruct r2 as [data2|e].
  2:{ destruct Hr2 as (_ & k & _ & Hin & Hk & Hnone).
      apply list_elem_of_fmap in Hin as ([k' ds] & -> & Hin). simpl in *.
      destruct (Hvoc k' ds Hin Hk) as [? ?]. congruence. }
  destruct Hr2 as (Ht2 & Hinit).
  assert (Hsome : forall k ds,
            (k, ds) ∈ kept (srcs (h t)) \/ (k, ds) ∈ kept (trgs (h t)) ->
            is_Some (data2 !! k)).
  { intros k ds Hin.
    destruct (loop_trgs_data _ _ _ _ _ Hrun2 k) as (Hout & Hlab & _).
    destruct (decide (k ∈ (trgs (h t)).*1)) as [Hk|Hk].
    - assert (Hd : is_Some (data_dict !! k)).
      { destruct Hin as [Hin|Hin]; by apply kept_elem in Hin as [_ ?]. }
      destruct Hd as [p Hp]. destruct (Hlab p Hk Hp) as (v & _ & ->). by eexists.
    - rewrite (Hout Hk). destruct Hin as [Hin|Hin].
      + apply kept_elem in Hin as [Hin Hd]. eauto.
      + apply kept_elem in Hin as [Hin _]. destruct Hk.
        apply list_elem_of_fmap. by exists (k, ds). }
  pose proof (DatasetFacts.comprehension_run (kept (srcs (h t))) data2) as Hc1.
  pose proof (DatasetFacts.comprehension_run (kept (trgs (h t))) data2) as Hc2.
  destruct (comprehension (kept (srcs (h t))) data2) as [l1|e1].
  2:{ destruct Hc1 as (k & _ & Hin & Hnone).
      apply list_elem_of_fmap in Hin as ([k' ds] & -> & Hin). simpl in *.
      destruct (Hsome k' ds (or_introl Hin)) as [? ?]. congruence. }
  destruct (comprehension (kept (trgs (h t))) data2) as [l2|e2].
  2:{ destruct Hc2 as (k & _ & Hin & Hnone).
      apply list_elem_of_fmap in Hin as ([k' ds] & -> & Hin). simpl in *.
      destruct (Hsome k' ds (or_intror Hin)) as [? ?]. congruence. }
  by exists l1, l2, h2.
Qed.

(** X16: What the data set is built over. When the constructor returns, on a
    topology in which no name is both a source and a target, the data set
    pairs each remaining source with an image folder built from its entry
    of [data_dict] with the [resize], [crop], [replicate] and [warmup]
    given, and each remaining target with the one-hot labels built from
    its entry and its vocabulary, in the order of the topology; and every
    remaining source is of type ImageFolder. *)
Theorem init_builds_dataset h self h' :
  NoDup ((srcs (h t)).*1) ->
  NoDup ((trgs (h t)).*1) ->
  (forall k, k ∈ (srcs (h t)).*1 -> k ∉ (trgs (h t)).*1) ->
  __init__ h = (Ok self, h') ->
  exists l1 l2,
    self_dataset self = MultiParallelDataset l1 l2 /\
    Forall2 (fun kv vd =>
               fst vd = snd kv /\ _type (snd kv) = "ImageFolder" /\
               exists f, data_dict !! fst kv = Some f /\ snd vd = images f)
            (kept (srcs (h t))) l1 /\
    Forall2 (fun kv vd =>
               fst vd = snd kv /\
               exists p v, data_dict !! fst kv = Some p /\
                 vocabs !! fst kv = Some v /\ snd vd = labels p v)
            (kept (trgs (h t))) l2.
Proof.
  intros Hnds Hndt Hdisj Hinit.
  destruct (init_run h Hnds Hndt)
    as (data1 & h1 & r2 & h2 & Hrun1 & Hrun2 & _ & _ & _ & Hr2).
  destruct r2 as [data2|e]; [|destruct Hr2 as [Hr2 _]; congruence].
  destruct Hr2 as (_ & Hsteps). rewrite Hsteps in Hinit.
  destruct (comprehension (kept (srcs (h t))) data2) as [l1|] eqn:Hc1;
    [|discriminate].
  destruct (comprehension (kept (trgs (h t))) data2) as [l2|] eqn:Hc2;
    [|discriminate].
  injection Hinit as <- <-. exists l1, l2. split; [done|]. split.
  - eapply Forall2_impl_elem; [by apply comprehension_Ok|].
    intros [k ds] [v d] Hin [Hv Hd]. simpl in *.
    apply kept_elem in Hin as [Hin Hk].
    assert (Hnot : k ∉ (trgs (h t)).*1).
    { apply Hdisj. apply list_elem_of_fmap. by exists (k, ds). }
    destruct (loop_trgs_data _ _ _ _ _ Hrun2 k) as (Hout & _ & _).
    rewrite (Hout Hnot) in Hd.
    destruct (loop_srcs_data _ _ _ _ _ Hrun1 k)
      as [Hsame|(ds' & f & Hin' & Hf & Hty & Hd')].
    + rewrite Hsame, lookup_empty in Hd. discriminate.
    + assert (ds' = ds) by (by apply (odict_functional (srcs (h t)) k)).
      subst ds'. split; [done|]. split; [done|].
      exists f. split; [done|]. congruence.
  - eapply Forall2_impl_elem; [by apply comprehension_Ok|].
    intros [k ds] [v d] Hin [Hv Hd]. simpl in *.
    apply kept_elem in Hin as [Hin [p Hp]].
    destruct (loop_trgs_data _ _ _ _ _ Hrun2 k) as (_ & Hlab & _).
    destruct (Hlab p) as (voc & Hvoc & Hd'); [|done|].
    { apply list_elem_of_fmap. by exists (k, ds). }
    split; [done|]. exists p, voc. repeat split; try done. congruence.
Qed.

(** The second loop up to the first target with data and no vocabulary. *)
Lemma loop_trgs_first_missing trg ds post pre : forall visited data h,
  trgs (h t) = kept visited ++ pre ++ (trg, ds) :: post ->
  NoDup ((pre ++ (trg, ds) :: post).*1) ->
  (forall k ds', (k, ds') ∈ pre -> is_Some (data_dict !! k) ->
     is_Some (vocabs !! k)) ->
  is_Some (data_dict !! trg) ->
  vocabs !! trg = None ->
  exists h',
    loop_trgs (pre ++ (trg, ds) :: post) data h = (Raise (KeyError trg), h') /\
    srcs (h' t) = srcs (h t) /\
    trgs (h' t) = kept (visited ++ pre) ++ (trg, ds) :: post /\
    (forall a, a <> t -> h' a = h a).
Proof.
  induction pre as [|[k0 d0] pre IH]; intros visited data h Hcur Hnd Hvoc [p Hp] Hnone.
  - exists h. simpl. rewrite Hp, Hnone, app_nil_r. by repeat split.
  - assert (Hnd' : NoDup ((pre ++ (trg, ds) :: post).*1)).
    { simpl in Hnd. by apply NoDup_cons in Hnd as [_ ?]. }
    assert (Hvoc' : forall k ds', (k, ds') ∈ pre -> is_Some (data_dict !! k) ->
                      is_Some (vocabs !! k)).
    { intros k ds' Hin. apply (Hvoc k ds'). by right. }
    simpl. destruct (data_dict !! k0) as [p0|] eqn:Hk0.
    + destruct (Hvoc k0 d0) as [v0 Hv0]; [left|by rewrite Hk0|].
      rewrite Hv0.
      assert (Hpres : present data_dict (k0, d0) = true).
      { unfold present. apply bool_decide_eq_true_2. simpl. by rewrite Hk0. }
      assert (Hcur' : trgs (h t) =
                kept (visited ++ [(k0, d0)]) ++ pre ++ (trg, ds) :: post).
      { rewrite DatasetFacts.filter_present_snoc, Hpres, <- app_assoc. done. }
      destruct (IH (visited ++ [(k0, d0)]) (<[k0 := labels p0 v0]> data) h
                  Hcur' Hnd' Hvoc' (ex_intro _ p Hp) Hnone)
        as (h' & -> & Hs & Ht & Hfr).
      exists h'. rewrite <- app_assoc in Ht. by repeat split.
    + unfold bind at 1, del_trg. rewrite <- app_comm_cons in Hcur. rewrite Hcur.
      rewrite (DatasetFacts.odict_del_head data_dict visited
                 (pre ++ (trg, ds) :: post) k0 d0 Hk0 Hnd).
      assert (Hpres : present data_dict (k0, d0) = false).
      { unfold present. apply bool_decide_eq_false_2. simpl. rewrite Hk0.
        by intros []. }
      set (h1 := update h t _).
      assert (Hcur' : trgs (h1 t) =
                kept (visited ++ [(k0, d0)]) ++ pre ++ (trg, ds) :: post).
      { unfold h1. rewrite DatasetFacts.update_same. simpl.
        by rewrite DatasetFacts.filter_present_snoc, Hpres, app_nil_r. }
      destruct (IH (visited ++ [(k0, d0)]) data h1
                  Hcur' Hnd' Hvoc' (ex_intro _ p Hp) Hnone)
        as (h' & -> & Hs & Ht & Hfr).
      exists h'. rewrite <- app_assoc in Ht. split; [done|]. split; [|split].
      * rewrite Hs. unfold h1. by rewrite DatasetFacts.update_same.
      * done.
      * intros a Ha. rewrite (Hfr a Ha). unfold h1.
        by apply DatasetFacts.update_other.
Qed.

(** X17: A target that has data but no vocabulary: the constructor raises
    [KeyError] for the first such target. It has then already changed the
    topology: the sources are pruned, the targets before the failing one
    are pruned, the failing target and those after it are still there. *)
Theorem init_missing_vocabulary h pre trg ds post :
  NoDup ((srcs (h t)).*1) ->
  NoDup ((trgs (h t)).*1) ->
  trgs (h t) = pre ++ (trg, ds) :: post ->
  (forall k ds', (k, ds') ∈ pre -> is_Some (data_dict !! k) ->
     is_Some (vocabs !! k)) ->
  is_Some (data_dict !! trg) ->
  vocabs !! trg = None ->
  exists h',
    __init__ h = (Raise (KeyError trg), h') /\
    srcs (h' t) = kept (srcs (h t)) /\
    trgs (h' t) = kept pre ++ (trg, ds) :: post /\
    (forall a, a <> t -> h' a = h a).
Proof.
  intros Hnds Hndt Htrgs Hvoc Hdata Hnone.
  destruct (DatasetFacts.loop_srcs_run (one_hot:=one_hot) ImageFolderDataset
              data_dict t warmup resize crop replicate
              (srcs (h t)) [] ∅ h eq_refl Hnds)
    as (data1 & h1 & Hrun1 & Hs1 & Ht1 & Hfr1 & _ & _).
  simpl in Hs1. rewrite Htrgs in Hndt.
  destruct (loop_trgs_first_missing trg ds post pre [] data1 h1)
    as (h2 & Hrun2 & Hs2 & Ht2 & Hfr2); try done.
  { by rewrite Ht1, Htrgs. }
  exists h2. rewrite init_steps, Hrun1, Ht1, Htrgs, Hrun2.
  split; [done|]. split; [by rewrite Hs2|]. split; [done|].
  intros a Ha. by rewrite Hfr2, Hfr1.
Qed.

(** X18: A source that has data but is not of type ImageFolder gets no entry in
    [data]: unless its name is also a target, the constructor cannot
    return, it raises [KeyError]. *)
Theorem init_other_source_fails h k ds :
  NoDup ((srcs (h t)).*1) ->
  NoDup ((trgs (h t)).*1) ->
  (k, ds) ∈ srcs (h t) ->
  is_Some (data_dict !! k) ->
  _type ds <> "ImageFolder" ->
  k ∉ (trgs (h t)).*1 ->
  exists k' h', __init__ h = (Raise (KeyError k'), h').
Proof.
  intros Hnds Hndt Hin Hk Hty Hnot.
  destruct (init_run h Hnds Hndt)
    as (data1 & h1 & r2 & h2 & Hrun1 & Hrun2 & _ & _ & _ & Hr2).
  destruct r2 as [data2|e].
  2:{ destruct Hr2 as (Hinit & k' & -> & _). by exists k', h2. }
  destruct Hr2 as (_ & Hinit).
  assert (Hnone : data2 !! k = None).
  { destruct (loop_trgs_data _ _ _ _ _ Hrun2 k) as (Hout & _ & _).
    rewrite (Hout Hnot).
    destruct (loop_srcs_data _ _ _ _ _ Hrun1 k)
      as [Hsame|(ds' & f & Hin' & _ & Hty' & _)]; [by rewrite Hsame|].
    assert (ds' = ds) by (by apply (odict_functional (srcs (h t)) k)).
    by subst ds'. }
  pose proof (DatasetFacts.comprehension_run (kept (srcs (h t))) data2) as Hc1.
  destruct (comprehension (kept (srcs (h t))) data2) as [l1|e1] eqn:Hcomp.
  - apply comprehension_Ok in Hcomp.
    assert (Hkept : (k, ds) ∈ kept (srcs (h t))) by (by apply kept_elem).
    apply list_elem_of_lookup in Hkept as [i Hi].
    destruct (Forall2_lookup_l _ _ _ _ _ Hcomp Hi) as (vd & _ & _ & Hd).
    simpl in Hd. congruence.
  - destruct Hc1 as (k' & -> & _). by exists k', h2.
Qed.

(** X19: Once pruned, a topology is stable: when the constructor returns, every
    key left in the topology has an entry in [data_dict], and a second
    data set built on the same topology with the same [data_dict] is
    built without deleting anything more. *)
Theorem init_idempotent h :
  NoDup ((srcs (h t)).*1) ->
  NoDup ((trgs (h t)).*1) ->
  (forall k ds, (k, ds) ∈ srcs (h t) -> is_Some (data_dict !! k) ->
     _type ds = "ImageFolder") ->
  (forall k ds, (k, ds) ∈ trgs (h t) -> is_Some (data_dict !! k) ->
     is_Some (vocabs !! k)) ->
  exists self1 h1 self2 h2,
    __init__ h = (Ok self1, h1) /\
    __init__ h1 = (Ok self2, h2) /\
    srcs (h2 t) = srcs (h1 t) /\
    trgs (h2 t) = trgs (h1 t) /\
    Forall (fun kv => is_Some (data_dict !! fst kv)) (srcs (h1 t) ++ trgs (h1 t)).
Proof.
  intros Hnds Hndt Himg Hvoc.
  destruct (dataset_init_returns h Hnds Hndt Himg Hvoc)
    as (l1 & l2 & h1 & Hrun1 & Hs1 & Ht1 & _).
  destruct (dataset_init_returns h1) as (l1' & l2' & h2 & Hrun2 & Hs2 & Ht2 & _).
  - rewrite Hs1. by apply kept_NoDup.
  - rewrite Ht1. by apply kept_NoDup.
  - rewrite Hs1. intros k ds [Hin _]%kept_elem Hk. by apply (Himg k ds).
  - rewrite Ht1. intros k ds [Hin _]%kept_elem Hk. by apply (Hvoc k ds).
  - eexists _, h1, _, h2. split; [exact Hrun1|]. split; [exact Hrun2|].
    split; [by rewrite Hs2, Hs1, kept_kept|].
    split; [by rewrite Ht2, Ht1, kept_kept|].
    rewrite Hs1, Ht1. apply Forall_app. split; apply Forall_forall;
      intros [k ds] Hin; by apply kept_elem in Hin as [_ ?].
Qed.

(** X20: No data for any name of the topology (an empty [data_dict], say): the
    constructor does not raise; it empties both dictionaries of the
    topology and builds the data set over no sources and no targets. *)
Theorem init_without_data h :
  NoDup ((srcs (h t)).*1) ->
  NoDup ((trgs (h t)).*1) ->
  (forall k, k ∈ (srcs (h t)).*1 ++ (trgs (h t)).*1 -> data_dict !! k = None) ->
  exists h',
    __init__ h =
      (Ok {| topology := t; self_dataset := MultiParallelDataset [] [] |}, h') /\
    srcs (h' t) = [] /\
    trgs (h' t) = [] /\
    (forall a, a <> t -> h' a = h a).
Proof.
  intros Hnds Hndt Hnodata.
  assert (Hempty : forall d : odict DataSource,
            (forall k, k ∈ d.*1 -> data_dict !! k = None) -> kept d = []).
  { intros d Hd. induction d as [|[k v] d IH]; [done|]. simpl.
    unfold present at 1. simpl. rewrite (Hd k) by left.
    rewrite bool_decide_eq_false_2 by (by intros []).
    apply IH. intros k' Hk'. apply Hd. by right. }
  assert (Hs : kept (srcs (h t)) = []).
  { apply Hempty. intros k Hk. apply Hnodata, elem_of_app. by left. }
  assert (Ht : kept (trgs (h t)) = []).
  { apply Hempty. intros k Hk. apply Hnodata, elem_of_app. by right. }
  destruct (init_run h Hnds Hndt)
    as (data1 & h1 & r2 & h2 & _ & _ & Hs2 & Hfr & _ & Hr2).
  destruct r2 as [data2|e].
  - destruct Hr2 as (Ht2 & Hinit). rewrite Hs, Ht in Hinit. simpl in Hinit.
    exists h2. split; [done|]. split; [by rewrite Hs2|]. split; [by rewrite Ht2|done].
  - destruct Hr2 as (_ & k & _ & Hin & [? Hk] & _).
    rewrite Hnodata in Hk; [done|]. apply elem_of_app. by right.
Qed.

End Construction.

(** [en] and [de] go, [image] and [labels] stay and are built. *)
Lemma init_builds_dataset_witness :
  exists self h' l1 l2,
    MultiLabelMulti30k.__init__ Examples.ImageFolderDataset Examples.OneHotDataset
      Examples.MultiParallelDataset Examples.data_dict Examples.vocabs
      7%nat false 256 224 1 Examples.heap0 = (Ok self, h') /\
    self_dataset self = Examples.MultiParallelDataset l1 l2 /\
    l1 = [(Examples.image, Images "/data/images")] /\
    l2 = [(Examples.labels, Labels "/data/test.labels")].
Proof.
  eexists _, _.
  assert (Hinit : MultiLabelMulti30k.__init__ Examples.ImageFolderDataset
            Examples.OneHotDataset Examples.MultiParallelDataset
            Examples.data_dict Examples.vocabs 7%nat false 256 224 1
            Examples.heap0 = (Ok _, _)) by (vm_compute; reflexivity).
  assert (Hnds : NoDup ((srcs (Examples.heap0 7%nat)).*1))
    by (apply (bool_decide_unpack _); vm_compute; exact I).
  assert (Hndt : NoDup ((trgs (Examples.heap0 7%nat)).*1))
    by (apply (bool_decide_unpack _); vm_compute; exact I).
  assert (Hdisj : forall k, k ∈ (srcs (Examples.heap0 7%nat)).*1 ->
                    k ∉ (trgs (Examples.heap0 7%nat)).*1).
  { intros k Hk. apply (bool_decide_unpack _).
    simpl in Hk. rewrite !elem_of_cons, elem_of_nil in Hk.
    destruct Hk as [->|[->|[]]]; vm_compute; exact I. }
  destruct (init_builds_dataset Examples.ImageFolderDataset
              Examples.OneHotDataset Examples.MultiParallelDataset
              Examples.data_dict Examples.vocabs 7%nat false 256 224 1
              Examples.heap0 _ _ Hnds Hndt Hdisj Hinit)
    as (l1 & l2 & Hds & Hl1 & Hl2).
  exists l1, l2. split; [exact Hinit|]. split; [exact Hds|].
  vm_compute in Hl1, Hl2.
    apply Forall2_cons_inv_l in Hl1 as ([v1 d1] & r1 & (Hv1 & _ & f & Hf & Hd1) & Hr1 & ->).
    apply Forall2_nil_inv_l in Hr1 as ->.
    apply Forall2_cons_inv_l in Hl2 as ([v2 d2] & r2 & (Hv2 & p & v & Hp & Hv & Hd2) & Hr2 & ->).
    apply Forall2_nil_inv_l in Hr2 as ->.
    simpl in *. injection Hf as <-. injection Hp as <-. subst. by split.
Defined.

(** [de] has data and no vocabulary: [labels] has been kept, [de] is
    still in the topology, and the sources are already pruned. *)
Lemma init_missing_vocabulary_witness :
  exists h',
    MultiLabelMulti30k.__init__ Examples.ImageFolderDataset Examples.OneHotDataset
      Examples.MultiParallelDataset MoreExamples.data_with_de Examples.vocabs
      7%nat false 256 224 1 Examples.heap0 = (Raise (KeyError "de"), h') /\
    srcs (h' 7%nat) = [("image", Examples.image)] /\
    trgs (h' 7%nat) = [("labels", Examples.labels); ("de", Examples.de)] /\
    (forall a, a <> 7%nat -> h' a = Examples.heap0 a).
Proof.
  apply (init_missing_vocabulary Examples.ImageFolderDataset
           Examples.OneHotDataset Examples.MultiParallelDataset
           MoreExamples.data_with_de Examples.vocabs 7%nat false 256 224 1
           Examples.heap0 [("labels", Examples.labels)] "de" Examples.de []).
  - apply (bool_decide_unpack _). vm_compute. exact I.
  - apply (bool_decide_unpack _). vm_compute. exact I.
  - reflexivity.
  - intros k ds' Hin _. rewrite elem_of_cons, elem_of_nil in Hin.
    destruct Hin as [[= -> ->]|[]]. by eexists.
  - by eexists.
  - reflexivity.
Defined.

(** [en] is a text source with data: the constructor raises. *)
Lemma init_other_source_fails_witness :
  exists k' h',
    MultiLabelMulti30k.__init__ Examples.ImageFolderDataset Examples.OneHotDataset
      Examples.MultiParallelDataset MoreExamples.data_with_en Examples.vocabs
      7%nat false 256 224 1 Examples.heap0 = (Raise (KeyError k'), h').
Proof.
  apply (init_other_source_fails Examples.ImageFolderDataset
           Examples.OneHotDataset Examples.MultiParallelDataset
           MoreExamples.data_with_en Examples.vocabs 7%nat false 256 224 1
           Examples.heap0 "en" Examples.en).
  - apply (bool_decide_unpack _). vm_compute. exact I.
  - apply (bool_decide_unpack _). vm_compute. exact I.
  - left.
  - by eexists.
  - discriminate.
  - apply (bool_decide_unpack _). vm_compute. exact I.
Defined.

(** The example topology, pruned once and built on again. *)
Lemma init_idempotent_witness :
  exists self1 h1 self2 h2,
    MultiLabelMulti30k.__init__ Examples.ImageFolderDataset Examples.OneHotDataset
      Examples.MultiParallelDataset Examples.data_dict Examples.vocabs
      7%nat false 256 224 1 Examples.heap0 = (Ok self1, h1) /\
    MultiLabelMulti30k.__init__ Examples.ImageFolderDataset Examples.OneHotDataset
      Examples.MultiParallelDataset Examples.data_dict Examples.vocabs
      7%nat false 256 224 1 h1 = (Ok self2, h2) /\
    srcs (h2 7%nat) = srcs (h1 7%nat) /\
    trgs (h2 7%nat) = trgs (h1 7%nat) /\
    Forall (fun kv => is_Some (Examples.data_dict !! fst kv))
      (srcs (h1 7%nat) ++ trgs (h1 7%nat)).
Proof.
  apply (init_idempotent Examples.ImageFolderDataset
           Examples.OneHotDataset Examples.MultiParallelDataset
           Examples.data_dict Examples.vocabs 7%nat false 256 224 1
           Examples.heap0).
  - apply (bool_decide_unpack _). vm_compute. exact I.
  - apply (bool_decide_unpack _). vm_compute. exact I.
  - intros k ds Hin [f Hk]. simpl in Hin.
    rewrite !elem_of_cons, elem_of_nil in Hin.
    destruct Hin as [[= -> ->]|[[= -> ->]|[]]]; [by vm_compute in Hk|reflexivity].
  - intros k ds Hin [f Hk]. simpl in Hin.
    rewrite !elem_of_cons, elem_of_nil in Hin.
    destruct Hin as [[= -> ->]|[[= -> ->]|[]]]; [by eexists|by vm_compute in Hk].
Defined.

(** An empty [data_dict]. *)
Lemma init_without_data_witness :
  exists h',
    MultiLabelMulti30k.__init__ Examples.ImageFolderDataset Examples.OneHotDataset
      Examples.MultiParallelDataset ∅ Examples.vocabs
      7%nat false 256 224 1 Examples.heap0 =
      (Ok {| topology := 7%nat;
             self_dataset := Examples.MultiParallelDataset [] [] |}, h') /\
    srcs (h' 7%nat) = [] /\
    trgs (h' 7%nat) = [] /\
    (forall a, a <> 7%nat -> h' a = Examples.heap0 a).
Proof.
  apply (init_without_data Examples.ImageFolderDataset
           Examples.OneHotDataset Examples.MultiParallelDataset
           ∅ Examples.vocabs 7%nat false 256 224 1 Examples.heap0).
  - apply (bool_decide_unpack _). vm_compute. exact I.
  - apply (bool_decide_unpack _). vm_compute. exact I.
  - intros k _. apply lookup_empty.
Defined.

End DatasetMore.

(** ** More on the file name: numbers in it *)

Module FormatFacts.
Import Py Translator.

(** The decimal writing of an integer tells the integer. *)
Lemma str_int_inj (a b : Z) : str_int a = str_int b -> a = b.
Proof.
  unfold str_int. intros Heq.
  assert (Hparse : forall z,
            NilZero.int_of_string (NilZero.string_of_int (Z.to_int z)) =
            Some (Z.to_int z)).
  { intros z. apply NilZero.isi; destruct z; try discriminate; simpl.
    - intros [= H]. by apply DecimalPos.Unsigned.to_uint_nonnil in H.
    - intros [= H]. by apply DecimalPos.Unsigned.to_uint_nonnil in H. }
  apply (f_equal NilZero.int_of_string) in Heq.
  rewrite !Hparse in Heq. injection Heq as Heq.
  by apply DecimalZ.to_int_inj.
Qed.

(** X14: Runs that differ only in the beam width are written under
    different file names: with the same output path, length penalty and
    number of models, two different beam widths give two different names for
    every split. *)
Theorem dump_output_beam_size self1 self2 split :
  output (args self1) = output (args self2) ->
  lp_alpha (args self1) = lp_alpha (args self2) ->
  n_models self1 = n_models self2 ->
  beam_size (args self1) <> beam_size (args self2) ->
  dump_output self1 split <> dump_output self2 split.
Proof.
  unfold dump_output. intros -> -> ->.
  set (alpha := lp_alpha (args self2)). set (N := n_models self2).
  set (pre := if float_gt0 alpha then "" +:+ ".lp_" +:+ format_1f alpha else "").
  set (mid := if decide (1 < N)%nat then pre +:+ ".ens" +:+ str_int (Z.of_nat N)
              else pre).
  intros Hbeam Heq. apply Hbeam, str_int_inj.
  destruct (decide (split = "new")).
  - apply (inj (String.app _)) in Heq.
    rewrite <- !PyFacts.append_assoc in Heq.
    by apply (inj (String.app _)) in Heq.
  - do 3 apply (inj (String.app _)) in Heq.
    rewrite <- !PyFacts.append_assoc in Heq.
    by apply (inj (String.app _)) in Heq.
Qed.

(** Beam widths 5 and 10 on the same output path. *)
Lemma dump_output_beam_size_witness :
  beam_size (args (Examples.writer "out" 2 5 Examples.one)) <>
  beam_size (args (Examples.writer "out" 2 10 Examples.one)) /\
  dump_output (Examples.writer "out" 2 5 Examples.one) "test" =
    "out.test.lp_1.0.ens2.beam5" /\
  dump_output (Examples.writer "out" 2 10 Examples.one) "test" =
    "out.test.lp_1.0.ens2.beam10" /\
  dump_output (Examples.writer "out" 2 5 Examples.one) "test" <>
  dump_output (Examples.writer "out" 2 10 Examples.one) "test".
Proof.
  split; [discriminate|]. do 2 (split; [reflexivity|]).
  apply (dump_output_beam_size (Examples.writer "out" 2 5 Examples.one)
           (Examples.writer "out" 2 10 Examples.one) "test");
    [reflexivity|reflexivity|reflexivity|discriminate].
Defined.

(** The digit that [tenths] rounds to. *)
Lemma tenths_nearest (m : positive) (e : Z) :
  0 <= tenths m e /\
  (0 <= e -> tenths m e = 10 * Z.pos m * 2 ^ e) /\
  (e < 0 ->
   2 * Z.abs (tenths m e * 2 ^ (- e) - 10 * Z.pos m) <= 2 ^ (- e) /\
   (2 * Z.abs (tenths m e * 2 ^ (- e) - 10 * Z.pos m) = 2 ^ (- e) ->
    Z.even (tenths m e) = true)).
Proof.
  unfold tenths. destruct (Z.leb_spec 0 e) as [He|He].
  - split; [|split; [done|lia]].
    assert (0 < 2 ^ e) by (apply Z.pow_pos_nonneg; lia). nia.
  - assert (Hd : 0 < 2 ^ (- e)) by (apply Z.pow_pos_nonneg; lia).
    set (d := 2 ^ (- e)) in *. set (N := 10 * Z.pos m).
    pose proof (Z.div_mod N d ltac:(lia)) as Hdm.
    pose proof (Z.mod_pos_bound N d Hd) as Hr.
    assert (Hq : 0 <= N / d) by (apply Z.div_pos; lia).
    set (q := N / d) in *. set (r := N mod d) in *.
    destruct (Z.ltb_spec (2 * r) d) as [Hlt|Hge].
    { split; [lia|]. split; [lia|]. intros _. split; [nia|nia]. }
    destruct (Z.ltb_spec d (2 * r)) as [Hgt|Hle].
    { split; [lia|]. split; [lia|]. intros _. split; [nia|nia]. }
    destruct (Z.even q) eqn:Hev.
    + split; [lia|]. split; [lia|]. intros _. split; [nia|done].
    + split; [lia|]. split; [lia|]. intros _. split; [nia|].
      intros _. rewrite Z.even_add, Hev. reflexivity.
Qed.

Lemma str_int_digit (d : Z) : 0 <= d <= 9 -> String.length (str_int d) = 1%nat.
Proof.
  intros Hd.
  assert (Hcases : d = 0 \/ d = 1 \/ d = 2 \/ d = 3 \/ d = 4 \/ d = 5 \/
                   d = 6 \/ d = 7 \/ d = 8 \/ d = 9) by lia.
  destruct Hcases as [->|[->|[->|[->|[->|[->|[->|[->|[->| ->]]]]]]]]];
    reflexivity.
Qed.

(** X15: The length penalty in the file name: a finite value is written as its
    sign, the integer part, a point and exactly one digit, and these are
    the value rounded to the nearest tenth, a tie going to the even
    digit. *)
Theorem format_1f_rounds (s : bool) (m : positive) (e : Z) :
  exists q d,
    format_1f (S754_finite s m e) =
      sign_str s +:+ str_int q +:+ "." +:+ str_int d /\
    0 <= q /\ 0 <= d <= 9 /\
    String.length (str_int d) = 1%nat /\
    (0 <= e -> 10 * q + d = 10 * Z.pos m * 2 ^ e) /\
    (e < 0 ->
     2 * Z.abs ((10 * q + d) * 2 ^ (- e) - 10 * Z.pos m) <= 2 ^ (- e) /\
     (2 * Z.abs ((10 * q + d) * 2 ^ (- e) - 10 * Z.pos m) = 2 ^ (- e) ->
      Z.even d = true)).
Proof.
  destruct (tenths_nearest m e) as (Hpos & Hexact & Hnear).
  pose proof (Z.div_mod (tenths m e) 10 ltac:(lia)) as Hdm.
  pose proof (Z.mod_pos_bound (tenths m e) 10 ltac:(lia)) as Hd.
  exists (tenths m e / 10), (tenths m e mod 10).
  split; [reflexivity|].
  split; [apply Z.div_pos; lia|]. split; [lia|].
  split; [apply str_int_digit; lia|].
  rewrite <- Hdm. split; [done|].
  intros He. destruct (Hnear He) as [Hle Htie]. split; [done|].
  intros Heq. specialize (Htie Heq).
  rewrite Hdm in Htie at 1.
  rewrite Z.even_add, Z.even_mul in Htie. simpl in Htie.
  by destruct (Z.even (tenths m e mod 10)).
Qed.

End FormatFacts.
